(** * Damon Service pricing application: sell-price calculation, inquiry
      ledger and approval transitions

    Shallow embedding of
      - [src/lib/supabaseBackend.ts] (class [SupabaseBackendService]), and
      - the PL/pgSQL functions of the initial schema migration
        ([calculate_price_logic], [request_price]),
    together with the two number systems they compute in: ECMAScript
    [number] (IEEE 754 binary64) on the client and PostgreSQL [NUMERIC]
    on the server. *)

From Stdlib Require Import ZArith QArith Qpower Qround Bool List String Lia.
From Stdlib Require Import Permutation Sorted.
From Stdlib Require Import Floats.SpecFloat.
Import ListNotations.

Local Open Scope string_scope.
Local Open Scope list_scope.
Local Open Scope Z_scope.

(* ================================================================== *)
(** ** Outcomes *)
(* ================================================================== *)

(** The result of an [async] method or of a PL/pgSQL function body: the
    value returned, or the message of the error thrown (raised); a
    thrown error ends the body. *)
Inductive outcome (A : Type) :=
| Returns (a : A)
| Throws (msg : string).
Arguments Returns {A}. Arguments Throws {A}.

Definition bind {A B} (m : outcome A) (k : A -> outcome B) : outcome B :=
  match m with
  | Returns a => k a
  | Throws msg => Throws msg
  end.

Notation "x <- m ;; k" := (bind m (fun x => k))
  (at level 61, m at next level, right associativity).

(* ================================================================== *)
(** ** ECMAScript numbers *)
(* ================================================================== *)

(** A JavaScript [number] is an IEEE 754 binary64 value: 53 bits of
    precision, exponents below 1024.  The arithmetic operators are the
    correctly rounded (nearest, ties to even) operations of the
    standard, here the executable specification of [SpecFloat]. *)
Module JsNumber.

Definition number : Type := spec_float.

Definition prec : Z := 53.
Definition emax : Z := 1024.

Definition mul : number -> number -> number := SFmul prec emax.
Definition add : number -> number -> number := SFadd prec emax.
Definition div : number -> number -> number := SFdiv prec emax.

Definition Infinity : number := S754_infinity false.

(** The integer [z >= 0] with sign [s] as a number: the mantissa is
    shifted up to 53 bits.  (An integer of more than 53 bits is kept
    as it is; none arises from a binary64 argument of [Math_ceil].) *)
Definition of_int (s : bool) (z : Z) : number :=
  match z with
  | Zpos p =>
      match prec - Zdigits2 z with
      | Zpos k => S754_finite s (shift_pos k p) (Zneg k)
      | _ => S754_finite s p 0
      end
  | _ => S754_zero s
  end.

Definition of_Z (z : Z) : number := of_int (z <? 0) (Z.abs z).

(** [Math.ceil]: NaN, the infinities and the zeros are returned as they
    are, and so is a finite number without fractional bits; otherwise
    the smallest integer not below the argument ([-0] for arguments in
    [(-1, 0)]). *)
Definition Math_ceil (x : number) : number :=
  match x with
  | S754_finite s m e =>
      if 0 <=? e then x
      else
        let q := Z.shiftr (Zpos m) (- e) in
        if s then of_int true q
        else if Z.shiftl q (- e) =? Zpos m then of_int false q
             else of_int false (q + 1)
  | _ => x
  end.

(** A decimal numeral [n / 10^scale], as JSON.parse reads it from a
    response body: the binary64 number nearest to the decimal value. *)
Definition of_decimal (n : Z) (scale : Z) : number :=
  match n with
  | Z0 => S754_zero false
  | Zpos p =>
      div (S754_finite false p 0) (S754_finite false (Z.to_pos (10 ^ scale)) 0)
  | Zneg p =>
      div (S754_finite true p 0) (S754_finite false (Z.to_pos (10 ^ scale)) 0)
  end.

(** [x === 0] (either zero). *)
Definition is_zero (x : number) : bool :=
  match x with S754_zero _ => true | _ => false end.

Definition is_finite (x : number) : bool :=
  match x with
  | S754_finite _ _ _ | S754_zero _ => true
  | _ => false
  end.

Definition signed (s : bool) (q : Q) : Q := if s then Qopp q else q.

(** The rational a finite number denotes (0 for the others). *)
Definition value (x : number) : Q :=
  match x with
  | S754_finite s m e => signed s (inject_Z (Zpos m) * Qpower (2 # 1) e)%Q
  | _ => 0%Q
  end.

(** [x < y] ([false] when either is NaN). *)
Definition ltb : number -> number -> bool := SFltb.

End JsNumber.

Import JsNumber.

(* ================================================================== *)
(** ** PostgreSQL NUMERIC *)
(* ================================================================== *)

(** A finite [NUMERIC] value is a decimal: an integer coefficient and a
    display scale, denoting [unscaled / 10^dscale].  Columns and PL/pgSQL
    variables declared [NUMERIC] without precision keep values as they
    are computed.  Products and sums are exact (the scales met here are
    far below the server's limits); a quotient is rounded, halves away
    from zero, at the scale the server selects for it
    ([select_div_scale] of its [numeric.c]), and a zero divisor raises
    [division by zero].  So [2 / 3] is [0.66666666666666666667] and
    [350000 / 150000] is [2.3333333333333333]. *)
Module PgNumeric.

Record numeric := { unscaled : Z; dscale : nat }.

Definition pow10 (n : nat) : Z := 10 ^ Z.of_nat n.

Definition mul (a b : numeric) : numeric :=
  {| unscaled := unscaled a * unscaled b; dscale := dscale a + dscale b |}.

Definition add (a b : numeric) : numeric :=
  let s := Nat.max (dscale a) (dscale b) in
  {| unscaled := unscaled a * pow10 (s - dscale a)
                 + unscaled b * pow10 (s - dscale b);
     dscale := s |}.

(** Number of decimal digits of a positive integer. *)
Fixpoint digits10_aux (fuel : nat) (n : Z) : Z :=
  match fuel with
  | O => 1
  | S fuel' => if n <? 10 then 1 else 1 + digits10_aux fuel' (n / 10)
  end.
Definition digits10 (n : Z) : Z := digits10_aux (Z.to_nat (Z.log2 n)) n.

(** Position and value of the leading base-10000 digit of [|a|]
    ([(0, 0)] for zero): the weight [w] is the largest integer with
    [10000^w <= |a|]. *)
Definition weight_firstdigit (a : numeric) : Z * Z :=
  let n := Z.abs (unscaled a) in
  if n =? 0 then (0, 0)
  else
    let d10 := digits10 n - 1 - Z.of_nat (dscale a) in
    let w := d10 / 4 in
    let sh := Z.of_nat (dscale a) + 4 * w in
    (w, if 0 <=? sh then n / 10 ^ sh else n * 10 ^ (- sh)).

Definition NUMERIC_MIN_SIG_DIGITS : Z := 16.
Definition DEC_DIGITS : Z := 4.
Definition NUMERIC_MAX_DISPLAY_SCALE : Z := 1000.

(** The result scale of a division: at least 16 significant digits,
    and not less than either operand's display scale. *)
Definition select_div_scale (var1 var2 : numeric) : nat :=
  let '(weight1, firstdigit1) := weight_firstdigit var1 in
  let '(weight2, firstdigit2) := weight_firstdigit var2 in
  let qweight := weight1 - weight2 in
  let qweight := if firstdigit1 <=? firstdigit2 then qweight - 1 else qweight in
  let rscale := NUMERIC_MIN_SIG_DIGITS - qweight * DEC_DIGITS in
  let rscale := Z.max rscale (Z.of_nat (dscale var1)) in
  let rscale := Z.max rscale (Z.of_nat (dscale var2)) in
  let rscale := Z.max rscale 0 in
  let rscale := Z.min rscale NUMERIC_MAX_DISPLAY_SCALE in
  Z.to_nat rscale.

(** [num / den] rounded to an integer, halves away from zero. *)
Definition div_round (num den : Z) : Z :=
  let q := Z.abs num / Z.abs den in
  let r := Z.abs num mod Z.abs den in
  let q := if Z.abs den <=? 2 * r then q + 1 else q in
  if Z.eqb (Z.sgn num) (Z.sgn den) then q else - q.

(** [a / b]; [None] is the [division by zero] error. *)
Definition div (a b : numeric) : option numeric :=
  if unscaled b =? 0 then None
  else
    let rscale := select_div_scale a b in
    Some {| unscaled := div_round (unscaled a * pow10 (rscale + dscale b))
                                  (unscaled b * pow10 (dscale a));
            dscale := rscale |}.

Definition ceil (a : numeric) : numeric :=
  {| unscaled := - ((- unscaled a) / pow10 (dscale a)); dscale := 0 |}.

Definition of_Z (z : Z) : numeric := {| unscaled := z; dscale := 0 |}.

Definition value (a : numeric) : Q :=
  (inject_Z (unscaled a) / inject_Z (pow10 (dscale a)))%Q.

(** The number a client reads for a NUMERIC column: the server prints
    the decimal value in the JSON body, and JSON.parse yields the
    nearest binary64 number. *)
Definition to_json_number (a : numeric) : JsNumber.number :=
  JsNumber.of_decimal (unscaled a) (Z.of_nat (dscale a)).

End PgNumeric.

Abbreviation numeric := PgNumeric.numeric.

(* ================================================================== *)
(** ** Client types *)
(* ================================================================== *)

(** Modelled from the spec: the declarations of [types.ts], which the
    service imports, are not among the sources.  A [Device] has the
    fields of the data model that the service fills from a [devices]
    row. *)
Record Device := {
  dev_id : string;
  modelName : string;
  categoryId : string;
  dev_isActive : bool;
  factoryPriceEUR : number;
  length : number;
  weight : number
}.

(** Modelled from the spec: [GlobalSettings] of [types.ts], the
    parameter set with its eight coefficients, as the service fills it
    from a [global_settings] row. *)
Record GlobalSettings := {
  gs_id : string;
  gs_isActive : bool;
  discountMultiplier : number;
  freightRatePerLengthEUR : number;
  customsNumerator : number;
  customsDenominator : number;
  warrantyRate : number;
  internalCommissionFactor : number;
  companyCostFactor : number;
  profitFactor : number
}.

(** Modelled from the spec: [PriceBreakdown] of [types.ts], the inputs
    P, L, W, a copy of the eight coefficients, and the ordered steps, as
    the object literal returned by [calculateBreakdown] lays them out. *)
Record Inputs := { in_P : number; in_L : number; in_W : number }.

Record Params := {
  p_D : number; p_F : number; p_CN : number; p_CD : number;
  p_WR : number; p_COM : number; p_OFF : number; p_PF : number
}.

Record Steps := {
  companyPrice : number;
  shipment : number;
  custom : number;
  warranty : number;
  subtotal : number;
  commission : number;
  office : number;
  sellPrice : number
}.

Record PriceBreakdown := { inputs : Inputs; params : Params; steps : Steps }.

(* ================================================================== *)
(** ** The client-side calculation *)
(* ================================================================== *)

Definition calculateBreakdown (device : Device) (settings : GlobalSettings)
  : PriceBreakdown :=
  let S := settings in
  let P := factoryPriceEUR device in
  let L := length device in
  let W := weight device in
  let companyPrice := mul P (discountMultiplier S) in
  let shipment := mul L (freightRatePerLengthEUR S) in
  let custom := mul W (div (customsNumerator S) (customsDenominator S)) in
  let warranty := mul companyPrice (warrantyRate S) in
  let subtotal := add (add (add companyPrice shipment) custom) warranty in
  let commission := div subtotal (internalCommissionFactor S) in
  let office := div commission (companyCostFactor S) in
  let sellPrice := Math_ceil (div office (profitFactor S)) in
  {| inputs := {| in_P := P; in_L := L; in_W := W |};
     params := {| p_D := discountMultiplier S;
                  p_F := freightRatePerLengthEUR S;
                  p_CN := customsNumerator S;
                  p_CD := customsDenominator S;
                  p_WR := warrantyRate S;
                  p_COM := internalCommissionFactor S;
                  p_OFF := companyCostFactor S;
                  p_PF := profitFactor S |};
     steps := {| companyPrice := companyPrice;
                 shipment := shipment;
                 custom := custom;
                 warranty := warranty;
                 subtotal := subtotal;
                 commission := commission;
                 office := office;
                 sellPrice := sellPrice |} |}.

Definition calculatePriceInternal (device : Device) (settings : GlobalSettings)
  : number :=
  sellPrice (steps (calculateBreakdown device settings)).

(* ================================================================== *)
(** ** The relational store *)
(* ================================================================== *)

Definition uuid : Type := string.

(** A [timestamptz]: microseconds since the epoch. *)
Definition timestamptz : Type := Z.

Inductive Status := pending | approved | rejected.

Definition Status_eqb (a b : Status) : bool :=
  match a, b with
  | pending, pending | approved, approved | rejected, rejected => true
  | _, _ => false
  end.

(** The lists that stand for the tables carry no order of their own:
    every select whose answer depends on the order of its rows goes
    through [scan] below.

    Rows are parameterised by the type [num] of their NUMERIC columns:
    [numeric] inside the database, [number] in the rows a client reads
    (type [Tables] of [supabase.ts]). *)
Section Rows.
Variable num : Type.

Record DeviceRow := {
  d_id : uuid;
  d_category_id : uuid;
  d_model_name : string;
  d_factory_price_eur : num;
  d_length : num;
  d_weight : num;
  d_is_active : bool
}.

Record SettingsRow := {
  s_id : uuid;
  s_discount_multiplier : num;
  s_freight_rate_per_length_eur : num;
  s_customs_numerator : num;
  s_customs_denominator : num;
  s_warranty_rate : num;
  s_internal_commission_factor : num;
  s_company_cost_factor : num;
  s_profit_factor : num;
  s_is_active : bool;
  s_created_at : timestamptz
}.

Record InquiryLogRow := {
  id : uuid;
  user_id : uuid;
  device_id : uuid;
  project_id : uuid;
  project_name_snapshot : option string;
  category_name_snapshot : option string;
  model_name_snapshot : option string;
  sell_price_eur_snapshot : num;
  status : Status;
  admin_response_time : option timestamptz;
  created_at : timestamptz
}.
End Rows.

Arguments d_id {num}. Arguments d_category_id {num}. Arguments d_model_name {num}.
Arguments d_factory_price_eur {num}. Arguments d_length {num}.
Arguments d_weight {num}. Arguments d_is_active {num}.
Arguments s_id {num}. Arguments s_discount_multiplier {num}.
Arguments s_freight_rate_per_length_eur {num}. Arguments s_customs_numerator {num}.
Arguments s_customs_denominator {num}. Arguments s_warranty_rate {num}.
Arguments s_internal_commission_factor {num}. Arguments s_company_cost_factor {num}.
Arguments s_profit_factor {num}. Arguments s_is_active {num}. Arguments s_created_at {num}.
Arguments id {num}. Arguments user_id {num}. Arguments device_id {num}.
Arguments project_id {num}. Arguments project_name_snapshot {num}.
Arguments category_name_snapshot {num}. Arguments model_name_snapshot {num}.
Arguments sell_price_eur_snapshot {num}. Arguments status {num}.
Arguments admin_response_time {num}. Arguments created_at {num}.

Record CategoryRow := { c_id : uuid; c_name : string; c_is_active : bool }.

Record ProjectRow := { p_id : uuid; p_user_id : uuid; p_name : string }.

Record Db (num : Type) := {
  categories : list CategoryRow;
  devices : list (DeviceRow num);
  global_settings : list (SettingsRow num);
  projects : list ProjectRow;
  inquiry_logs : list (InquiryLogRow num)
}.

Arguments categories {num}. Arguments devices {num}.
Arguments global_settings {num}. Arguments projects {num}.
Arguments inquiry_logs {num}.

Definition set_inquiry_logs {num} (db : Db num) (logs : list (InquiryLogRow num))
  : Db num :=
  {| categories := categories db;
     devices := devices db;
     global_settings := global_settings db;
     projects := projects db;
     inquiry_logs := logs |}.

(** Insertion of [x] into a list ordered by decreasing [key] (after the
    rows with a key at least as large). *)
Fixpoint insert_desc {A} (key : A -> Z) (x : A) (l : list A) : list A :=
  match l with
  | [] => [x]
  | y :: l' => if key y <? key x then x :: l else y :: insert_desc key x l'
  end.

(** [ORDER BY key DESC]: the rows by decreasing key, rows of equal keys
    as the order of the rows they are given in decides (the last of
    them first). *)
Definition order_desc {A} (key : A -> Z) (rows : list A) : list A :=
  fold_right (insert_desc key) [] rows.

(** [a] may come before [b] in decreasing order of [key]. *)
Definition desc {A} (key : A -> Z) (a b : A) : Prop := key b <= key a.

(** A table has no order of its own.  A select without [ORDER BY]
    returns the rows in the order of the scan, and so does an
    [ORDER BY] among rows with equal keys; the store decides that order
    anew at every statement (an [UPDATE] moves the row it writes).  The
    environment gives the rows a [rank] by their place in the list that
    stands for the table, and the scan returns them by increasing
    rank. *)
Definition scan {R} (rank : nat -> nat) (rows : list R) : list R :=
  map snd (order_desc (fun ir => - Z.of_nat (rank (fst ir)))
                      (combine (seq 0 (List.length rows)) rows)).

(* ================================================================== *)
(** ** The store client (supabase-js) *)
(* ================================================================== *)

Record PostgrestError := { message : string }.

Record response (A : Type) := { data : option A; error : option PostgrestError }.
Arguments data {A}. Arguments error {A}.

(** The store calls the service makes.  Whether a call fails (transport,
    a constraint, a policy that rejects an insert) is decided outside
    the program, and so are the order of a scan and the role of the
    signed-in caller, which the policy of [inquiry_logs] for UPDATE
    reads. *)
Inductive Call :=
| SelectDevice | SelectExistingLog | SelectSettings | SelectCategory
| InsertInquiryLog | SelectUserRequests | UpdateInquiryLog.

Record Env := {
  fault : Call -> option PostgrestError;
  gen_random_uuid : uuid;        (* column default of [id] *)
  now : timestamptz;             (* server clock, column default of [created_at] *)
  Date_now : timestamptz;        (* client clock, [new Date()] *)
  scan_rank : Call -> nat -> nat;   (* order of the scan behind a select *)
  auth_is_admin : bool           (* the role of [auth.uid()] is 'admin' *)
}.

Definition PGRST116 : PostgrestError :=
  {| message := "JSON object requested, multiple (or no) rows returned" |}.

(** [.select(...)] followed by filters: the matching rows, or the error. *)
Definition select_rows {R} (f : option PostgrestError) (rows : list R)
  : response (list R) :=
  match f with
  | Some e => {| data := None; error := Some e |}
  | None => {| data := Some rows; error := None |}
  end.

(** [.maybeSingle()]: the row when exactly one matches, [null] without
    error when none does, [null] with an error when several do.  The
    answer does not depend on the order of the rows (lemma
    [maybeSingle_scan]), and the selects that end in [.maybeSingle()]
    are written without their scan. *)
Definition maybeSingle {R} (r : response (list R)) : response R :=
  match data r, error r with
  | Some [], None => {| data := None; error := None |}
  | Some [x], None => {| data := Some x; error := None |}
  | Some _, None => {| data := None; error := Some PGRST116 |}
  | _, e => {| data := None; error := e |}
  end.

(* ================================================================== *)
(** ** The backend service ([SupabaseBackendService]) *)
(* ================================================================== *)

(** Modelled from the spec: [RequestStatusDTO] of [types.ts], with the
    fields of the object literals [requestPrice] and [getUserRequests]
    return. *)
Record RequestStatusDTO := {
  requestId : uuid;
  dto_deviceId : uuid;
  dto_projectId : uuid;
  dto_status : Status;
  sellPriceEUR : option number;
  timestamp : Z
}.

(** [new Date(created_at).getTime()]: milliseconds since the epoch. *)
Definition getTime (t : timestamptz) : Z := t / 1000.

Definition toDevice (device : DeviceRow number) : Device :=
  {| dev_id := d_id device;
     modelName := d_model_name device;
     categoryId := d_category_id device;
     dev_isActive := d_is_active device;
     factoryPriceEUR := d_factory_price_eur device;
     length := d_length device;
     weight := d_weight device |}.

Definition toSettings (settings : SettingsRow number) : GlobalSettings :=
  {| gs_id := s_id settings;
     gs_isActive := s_is_active settings;
     discountMultiplier := s_discount_multiplier settings;
     freightRatePerLengthEUR := s_freight_rate_per_length_eur settings;
     customsNumerator := s_customs_numerator settings;
     customsDenominator := s_customs_denominator settings;
     warrantyRate := s_warranty_rate settings;
     internalCommissionFactor := s_internal_commission_factor settings;
     companyCostFactor := s_company_cost_factor settings;
     profitFactor := s_profit_factor settings |}.

Definition is_pending_for {num} (userId deviceId projectId : uuid)
    (log : InquiryLogRow num) : bool :=
  String.eqb (user_id log) userId && String.eqb (device_id log) deviceId
  && String.eqb (project_id log) projectId && Status_eqb (status log) pending.

Definition active_settings {num} (db : Db num) : list (SettingsRow num) :=
  filter s_is_active (global_settings db).

Definition device_by_id {num} (db : Db num) (deviceId : uuid)
  : list (DeviceRow num) :=
  filter (fun d => String.eqb (d_id d) deviceId) (devices db).

(** A finite number after its trip through JSON and the NUMERIC column:
    [-0] is printed as [0]; every other finite number is read back as it
    was. *)
Definition through_json (x : number) : number :=
  match x with
  | S754_zero _ => S754_zero false
  | _ => x
  end.

Definition requestPrice (env : Env) (db : Db number)
    (userId deviceId projectId : uuid)
  : outcome RequestStatusDTO * Db number :=
  let device_r :=
    maybeSingle (select_rows (fault env SelectDevice) (device_by_id db deviceId)) in
  match error device_r, data device_r with
  | Some _, _ | _, None => (Throws "Device not found", db)
  | None, Some device =>
    let existing_r :=
      maybeSingle (select_rows (fault env SelectExistingLog)
                     (filter (is_pending_for userId deviceId projectId)
                             (inquiry_logs db))) in
    match data existing_r with
    | Some existingLog =>
        (Returns {| requestId := id existingLog;
                    dto_deviceId := device_id existingLog;
                    dto_projectId := project_id existingLog;
                    dto_status := status existingLog;
                    sellPriceEUR := None;
                    timestamp := getTime (created_at existingLog) |}, db)
    | None =>
      let settings_r :=
        maybeSingle (select_rows (fault env SelectSettings) (active_settings db)) in
      match data settings_r with
      | None => (Throws "Settings not found", db)
      | Some settings =>
        let category_r :=
          maybeSingle (select_rows (fault env SelectCategory)
                         (filter (fun c => String.eqb (c_id c) (d_category_id device))
                                 (categories db))) in
        let priceEUR := calculatePriceInternal (toDevice device) (toSettings settings) in
        (* [.insert(...).select()]: the insert fails as a whole, or the
           row is written, with the column defaults for [id], [status],
           [admin_response_time] and [created_at], and read back.  The
           price travels as JSON: NaN and the infinities are sent as
           [null], which the NOT NULL column [sell_price_eur_snapshot]
           rejects *)
        match fault env InsertInquiryLog, is_finite priceEUR with
        | Some _, _ | None, false => (Throws "Failed to create inquiry log", db)
        | None, true =>
          let inquiry :=
            {| id := gen_random_uuid env;
               user_id := userId;
               device_id := deviceId;
               project_id := projectId;
               project_name_snapshot := None;
               category_name_snapshot :=
                 Some match data category_r with
                      | Some category =>
                          if String.eqb (c_name category) "" then "Unknown"
                          else c_name category
                      | None => "Unknown"
                      end;
               model_name_snapshot := Some (d_model_name device);
               sell_price_eur_snapshot := through_json priceEUR;
               status := pending;
               admin_response_time := None;
               created_at := now env |} in
          (Returns {| requestId := id inquiry;
                      dto_deviceId := device_id inquiry;
                      dto_projectId := project_id inquiry;
                      dto_status := pending;
                      sellPriceEUR := None;
                      timestamp := getTime (created_at inquiry) |},
           set_inquiry_logs db (inquiry_logs db ++ [inquiry]))
        end
      end
    end
  end.

(** The arrow function [getUserRequests] maps over the rows. *)
Definition request_of_log (log : InquiryLogRow number) : RequestStatusDTO :=
  {| requestId := id log;
     dto_deviceId := device_id log;
     dto_projectId := project_id log;
     dto_status := status log;
     sellPriceEUR :=
       if Status_eqb (status log) approved
       then Some (sell_price_eur_snapshot log) else None;
     timestamp := getTime (created_at log) |}.

Definition getUserRequests (env : Env) (db : Db number) (userId : uuid)
  : outcome (list RequestStatusDTO) :=
  let r :=
    select_rows (fault env SelectUserRequests)
      (order_desc created_at
         (scan (scan_rank env SelectUserRequests)
            (filter (fun log => String.eqb (user_id log) userId)
                    (inquiry_logs db)))) in
  match error r with
  | Some _ => Returns []     (* the error is written to the console *)
  | None =>
      Returns (map request_of_log
                   match data r with Some rows => rows | None => [] end)
  end.

Definition getDeviceBreakdown (env : Env) (db : Db number) (deviceId : uuid)
  : outcome PriceBreakdown :=
  let device_r :=
    maybeSingle (select_rows (fault env SelectDevice) (device_by_id db deviceId)) in
  let settings_r :=
    maybeSingle (select_rows (fault env SelectSettings) (active_settings db)) in
  match data device_r, data settings_r with
  | Some device, Some settings =>
      Returns (calculateBreakdown (toDevice device) (toSettings settings))
  | _, _ => Throws "Device or settings not found"
  end.

(** The [status] parameter of [setRequestStatus]: ['approved' | 'rejected']. *)
Inductive Decision := Approved | Rejected.

Definition Decision_status (d : Decision) : Status :=
  match d with Approved => approved | Rejected => rejected end.

(** [.update({ status, admin_response_time })] on one row. *)
Definition update_log {num} (st : Status) (t : timestamptz)
    (log : InquiryLogRow num) : InquiryLogRow num :=
  {| id := id log;
     user_id := user_id log;
     device_id := device_id log;
     project_id := project_id log;
     project_name_snapshot := project_name_snapshot log;
     category_name_snapshot := category_name_snapshot log;
     model_name_snapshot := model_name_snapshot log;
     sell_price_eur_snapshot := sell_price_eur_snapshot log;
     status := st;
     admin_response_time := Some t;
     created_at := created_at log |}.

(** The policy "Admins can update inquiry logs" lets an UPDATE see the
    rows only when the caller is an administrator, to whom the policy
    for SELECT shows every row: for any other caller the statement
    matches no row, writes nothing and reports no error. *)
Definition setRequestStatus (env : Env) (db : Db number)
    (logId : uuid) (st : Decision)
  : outcome unit * Db number :=
  match fault env UpdateInquiryLog with
  | Some e =>
      (Throws (String.append "Failed to update request status: " (message e)), db)
  | None =>
      (Returns tt,
       set_inquiry_logs db
         (map (fun log => if String.eqb (id log) logId && auth_is_admin env
                          then update_log (Decision_status st) (Date_now env) log
                          else log)
              (inquiry_logs db)))
  end.

(* ================================================================== *)
(** ** The server-side functions (PL/pgSQL) *)
(* ================================================================== *)

Module Sql.

(** The [/] operator on NUMERIC. *)
Definition numeric_div (a b : numeric) : outcome numeric :=
  match PgNumeric.div a b with
  | Some q => Returns q
  | None => Throws "division by zero"
  end.

(** The [breakdown] document built by [jsonb_build_object]. *)
Record breakdown_inputs := { bi_P : numeric; bi_L : numeric; bi_W : numeric }.
Record breakdown_params := {
  bp_D : numeric; bp_F : numeric; bp_WR : numeric; bp_PF : numeric
}.
Record breakdown_steps := {
  bs_companyPrice : numeric;
  bs_shipment : numeric;
  bs_custom : numeric;
  bs_warranty : numeric;
  bs_subtotal : numeric;
  bs_sellPrice : numeric
}.
Record breakdown_jsonb := {
  b_inputs : breakdown_inputs;
  b_params : breakdown_params;
  b_steps : breakdown_steps
}.

Record price_row := { sell_price : numeric; breakdown : breakdown_jsonb }.

(** The arithmetic of [calculate_price_logic] on a fetched device row
    [d] and settings row [s]. *)
Definition price_of_rows (d : DeviceRow numeric) (s : SettingsRow numeric)
  : outcome price_row :=
  let v_company_price :=
    PgNumeric.mul (d_factory_price_eur d) (s_discount_multiplier s) in
  let v_shipment :=
    PgNumeric.mul (d_length d) (s_freight_rate_per_length_eur s) in
  ratio <- numeric_div (s_customs_numerator s) (s_customs_denominator s) ;;
  let v_custom := PgNumeric.mul (d_weight d) ratio in
  let v_warranty := PgNumeric.mul v_company_price (s_warranty_rate s) in
  let v_subtotal :=
    PgNumeric.add (PgNumeric.add (PgNumeric.add v_company_price v_shipment)
                                 v_custom) v_warranty in
  v_commission <- numeric_div v_subtotal (s_internal_commission_factor s) ;;
  v_office <- numeric_div v_commission (s_company_cost_factor s) ;;
  quotient <- numeric_div v_office (s_profit_factor s) ;;
  let v_final_price := PgNumeric.ceil quotient in
  Returns
    {| sell_price := v_final_price;
       breakdown :=
         {| b_inputs := {| bi_P := d_factory_price_eur d;
                           bi_L := d_length d;
                           bi_W := d_weight d |};
            b_params := {| bp_D := s_discount_multiplier s;
                           bp_F := s_freight_rate_per_length_eur s;
                           bp_WR := s_warranty_rate s;
                           bp_PF := s_profit_factor s |};
            b_steps := {| bs_companyPrice := v_company_price;
                          bs_shipment := v_shipment;
                          bs_custom := v_custom;
                          bs_warranty := v_warranty;
                          bs_subtotal := v_subtotal;
                          bs_sellPrice := v_final_price |} |} |}.

(** [SELECT * INTO s FROM global_settings WHERE is_active = true
    ORDER BY created_at DESC LIMIT 1]. *)
Definition latest_active_settings (env : Env) (db : Db numeric)
  : option (SettingsRow numeric) :=
  hd_error (order_desc s_created_at
              (scan (scan_rank env SelectSettings) (active_settings db))).

Definition calculate_price_logic (env : Env) (db : Db numeric) (p_device_id : uuid)
  : outcome price_row :=
  match hd_error (device_by_id db p_device_id) with
  | None => Throws "Device not found"
  | Some d =>
      match latest_active_settings env db with
      | None => Throws "No active settings found"
      | Some s => price_of_rows d s
      end
  end.

Record request_price_jsonb := {
  r_requestId : uuid;
  r_status : Status;
  r_timestamp : Q        (* extract(epoch from now()) * 1000 *)
}.

(** [auth_uid] is the caller, [auth.uid()]. *)
Definition request_price (env : Env) (auth_uid : uuid) (db : Db numeric)
    (p_device_id p_project_id : uuid)
  : outcome request_price_jsonb * Db numeric :=
  let v_user_id := auth_uid in
  let v_project_name :=
    option_map p_name
      (hd_error (filter (fun p => String.eqb (p_id p) p_project_id) (projects db))) in
  let joined :=
    flat_map (fun d =>
                map (fun c => (d_model_name d, c_name c))
                    (filter (fun c => String.eqb (d_category_id d) (c_id c))
                            (categories db)))
             (device_by_id db p_device_id) in
  let v_model_name := option_map fst (hd_error joined) in
  let v_cat_name := option_map snd (hd_error joined) in
  match calculate_price_logic env db p_device_id with
  | Throws msg => (Throws msg, db)
  | Returns row =>
      let v_price := sell_price row in
      match fault env InsertInquiryLog with
      | Some e => (Throws (message e), db)
      | None =>
          let v_log_id := gen_random_uuid env in
          let log :=
            {| id := v_log_id;
               user_id := v_user_id;
               device_id := p_device_id;
               project_id := p_project_id;
               project_name_snapshot := v_project_name;
               category_name_snapshot := v_cat_name;
               model_name_snapshot := v_model_name;
               sell_price_eur_snapshot := v_price;
               status := pending;
               admin_response_time := None;
               created_at := now env |} in
          (Returns {| r_requestId := v_log_id;
                      r_status := pending;
                      r_timestamp := (inject_Z (now env) / 1000)%Q |},
           set_inquiry_logs db (inquiry_logs db ++ [log]))
      end
  end.

End Sql.

(** The rows a client reads from the database: every NUMERIC column as
    the JSON number of its value. *)
Definition client_device (d : DeviceRow numeric) : DeviceRow number :=
  {| d_id := d_id d;
     d_category_id := d_category_id d;
     d_model_name := d_model_name d;
     d_factory_price_eur := PgNumeric.to_json_number (d_factory_price_eur d);
     d_length := PgNumeric.to_json_number (d_length d);
     d_weight := PgNumeric.to_json_number (d_weight d);
     d_is_active := d_is_active d |}.

Definition client_settings (s : SettingsRow numeric) : SettingsRow number :=
  {| s_id := s_id s;
     s_discount_multiplier := PgNumeric.to_json_number (s_discount_multiplier s);
     s_freight_rate_per_length_eur :=
       PgNumeric.to_json_number (s_freight_rate_per_length_eur s);
     s_customs_numerator := PgNumeric.to_json_number (s_customs_numerator s);
     s_customs_denominator := PgNumeric.to_json_number (s_customs_denominator s);
     s_warranty_rate := PgNumeric.to_json_number (s_warranty_rate s);
     s_internal_commission_factor :=
       PgNumeric.to_json_number (s_internal_commission_factor s);
     s_company_cost_factor := PgNumeric.to_json_number (s_company_cost_factor s);
     s_profit_factor := PgNumeric.to_json_number (s_profit_factor s);
     s_is_active := s_is_active s;
     s_created_at := s_created_at s |}.

Definition client_log (l : InquiryLogRow numeric) : InquiryLogRow number :=
  {| id := id l;
     user_id := user_id l;
     device_id := device_id l;
     project_id := project_id l;
     project_name_snapshot := project_name_snapshot l;
     category_name_snapshot := category_name_snapshot l;
     model_name_snapshot := model_name_snapshot l;
     sell_price_eur_snapshot := PgNumeric.to_json_number (sell_price_eur_snapshot l);
     status := status l;
     admin_response_time := admin_response_time l;
     created_at := created_at l |}.

Definition client_view (db : Db numeric) : Db number :=
  {| categories := categories db;
     devices := map client_device (devices db);
     global_settings := map client_settings (global_settings db);
     projects := projects db;
     inquiry_logs := map client_log (inquiry_logs db) |}.

(* ================================================================== *)
(** ** Seed data of the migration *)
(* ================================================================== *)

Definition dec (n : Z) (scale : nat) : numeric :=
  {| PgNumeric.unscaled := n; PgNumeric.dscale := scale |}.

Definition seed_settings : SettingsRow numeric :=
  {| s_id := "f47ac10b-58cc-4372-a567-0e02b2c3d999";
     s_discount_multiplier := dec 38 2;
     s_freight_rate_per_length_eur := dec 1000 0;
     s_customs_numerator := dec 350000 0;
     s_customs_denominator := dec 150000 0;
     s_warranty_rate := dec 5 2;
     s_internal_commission_factor := dec 95 2;
     s_company_cost_factor := dec 95 2;
     s_profit_factor := dec 65 2;
     s_is_active := true;
     s_created_at := 0 |}.

Definition cat_vrf : uuid := "f47ac10b-58cc-4372-a567-0e02b2c3d479".
Definition cat_chillers : uuid := "f47ac10b-58cc-4372-a567-0e02b2c3d480".
Definition cat_ahu : uuid := "f47ac10b-58cc-4372-a567-0e02b2c3d481".

Definition seed_categories : list CategoryRow :=
  [ {| c_id := cat_vrf; c_name := "VRF Systems"; c_is_active := true |};
    {| c_id := cat_chillers; c_name := "Chillers"; c_is_active := true |};
    {| c_id := cat_ahu; c_name := "Air Handling Units (AHU)"; c_is_active := true |} ].

Definition device_row (i c m : string) (P L W : numeric) : DeviceRow numeric :=
  {| d_id := i; d_category_id := c; d_model_name := m;
     d_factory_price_eur := P; d_length := L; d_weight := W;
     d_is_active := true |}.

Definition seed_devices : list (DeviceRow numeric) :=
  [ device_row "d47ac10b-58cc-4372-a567-0e02b2c3d479" cat_vrf "VRF-Outdoor-20HP"
      (dec 15000 0) (dec 25 1) (dec 400 0);
    device_row "d47ac10b-58cc-4372-a567-0e02b2c3d480" cat_vrf "VRF-Indoor-Cassette"
      (dec 800 0) (dec 8 1) (dec 30 0);
    device_row "d47ac10b-58cc-4372-a567-0e02b2c3d481" cat_chillers "Screw-Chiller-100T"
      (dec 45000 0) (dec 40 1) (dec 2500 0);
    device_row "d47ac10b-58cc-4372-a567-0e02b2c3d482" cat_chillers "Scroll-Chiller-Mini"
      (dec 12000 0) (dec 15 1) (dec 600 0);
    device_row "d47ac10b-58cc-4372-a567-0e02b2c3d483" cat_ahu "AHU-Industrial-5000"
      (dec 8000 0) (dec 30 1) (dec 900 0);
    device_row "d47ac10b-58cc-4372-a567-0e02b2c3d484" cat_ahu "AHU-Hygienic-2000"
      (dec 11000 0) (dec 22 1) (dec 750 0) ].

Definition seed_db : Db numeric :=
  {| categories := seed_categories;
     devices := seed_devices;
     global_settings := [seed_settings];
     projects := [];
     inquiry_logs := [] |}.

(* ================================================================== *)
(** ** The pricing formula of the specification *)
(* ================================================================== *)

(** The operations the formula needs from a number system.  Division
    may fail (it raises in SQL; it never does on binary64 numbers). *)
Class Arithmetic (N : Type) := {
  times : N -> N -> N;
  plus : N -> N -> N;
  over : N -> N -> outcome N;
  ceiling : N -> N
}.

#[export] Instance number_Arithmetic : Arithmetic number :=
  {| times := JsNumber.mul;
     plus := JsNumber.add;
     over := fun a b => Returns (JsNumber.div a b);
     ceiling := Math_ceil |}.

#[export] Instance numeric_Arithmetic : Arithmetic numeric :=
  {| times := PgNumeric.mul;
     plus := PgNumeric.add;
     over := Sql.numeric_div;
     ceiling := PgNumeric.ceil |}.

(** The algorithm of the specification, step by step in its fixed
    order, over any number system. *)
Definition spec_sellPrice {N} `{Arithmetic N}
    (factoryPrice len wgt : N)
    (discountMult freightRate customsNum customsDen warrantyRt
     internalCommission companyCost profitFac : N)
  : outcome N :=
  let companyPrice := times factoryPrice discountMult in
  let shipment := times len freightRate in
  ratio <- over customsNum customsDen ;;
  let custom := times wgt ratio in
  let warranty := times companyPrice warrantyRt in
  let subtotal := plus (plus (plus companyPrice shipment) custom) warranty in
  commission <- over subtotal internalCommission ;;
  office <- over commission companyCost ;;
  quotient <- over office profitFac ;;
  Returns (ceiling quotient).

(* ================================================================== *)
(** ** Example data *)
(* ================================================================== *)

(** The worked example of the specification: the first seeded device
    under the seeded settings, as the client reads them. *)
Definition worked_device : Device :=
  {| dev_id := "d47ac10b-58cc-4372-a567-0e02b2c3d479";
     modelName := "VRF-Outdoor-20HP";
     categoryId := cat_vrf;
     dev_isActive := true;
     factoryPriceEUR := of_decimal 15000 0;
     length := of_decimal 25 1;
     weight := of_decimal 400 0 |}.

Definition worked_settings : GlobalSettings :=
  {| gs_id := "f47ac10b-58cc-4372-a567-0e02b2c3d999";
     gs_isActive := true;
     discountMultiplier := of_decimal 38 2;
     freightRatePerLengthEUR := of_decimal 1000 0;
     customsNumerator := of_decimal 350000 0;
     customsDenominator := of_decimal 150000 0;
     warrantyRate := of_decimal 5 2;
     internalCommissionFactor := of_decimal 95 2;
     companyCostFactor := of_decimal 95 2;
     profitFactor := of_decimal 65 2 |}.

(** An environment in which the calls [failing] fail. *)
Definition network_error : PostgrestError := {| message := "TypeError: Failed to fetch" |}.

(** An environment whose caller is an administrator and whose scans
    return the rows in the order of the list; and the same environment
    for a caller who is none, or with another order of scan. *)
Definition env_of (failing : Call -> bool) (new_id : uuid) (t : timestamptz) : Env :=
  {| fault := fun c => if failing c then Some network_error else None;
     gen_random_uuid := new_id;
     now := t;
     Date_now := t;
     scan_rank := fun _ n => n;
     auth_is_admin := true |}.

Definition as_employee (env : Env) : Env :=
  {| fault := fault env;
     gen_random_uuid := gen_random_uuid env;
     now := now env;
     Date_now := Date_now env;
     scan_rank := scan_rank env;
     auth_is_admin := false |}.

Definition with_scan (rank : nat -> nat) (env : Env) : Env :=
  {| fault := fault env;
     gen_random_uuid := gen_random_uuid env;
     now := now env;
     Date_now := Date_now env;
     scan_rank := fun _ => rank;
     auth_is_admin := auth_is_admin env |}.

Definition no_call : Call -> bool := fun _ => false.

Definition only_existing_log_lookup : Call -> bool :=
  fun c => match c with SelectExistingLog => true | _ => false end.

Definition only_user_requests : Call -> bool :=
  fun c => match c with SelectUserRequests => true | _ => false end.

Definition user1 : uuid := "a0000000-0000-4000-8000-000000000001".
Definition project1 : uuid := "b0000000-0000-4000-8000-000000000001".
Definition outdoor_unit : uuid := "d47ac10b-58cc-4372-a567-0e02b2c3d479".

(** The seeded store with one project of [user1]. *)
Definition shop_db : Db numeric :=
  {| categories := categories seed_db;
     devices := devices seed_db;
     global_settings := global_settings seed_db;
     projects := [ {| p_id := project1; p_user_id := user1; p_name := "Tower A" |} ];
     inquiry_logs := [] |}.

(** The seeded settings with another profit factor. *)
Definition settings_row (i : uuid) (profit : numeric) (t : timestamptz)
  : SettingsRow numeric :=
  {| s_id := i;
     s_discount_multiplier := s_discount_multiplier seed_settings;
     s_freight_rate_per_length_eur := s_freight_rate_per_length_eur seed_settings;
     s_customs_numerator := s_customs_numerator seed_settings;
     s_customs_denominator := s_customs_denominator seed_settings;
     s_warranty_rate := s_warranty_rate seed_settings;
     s_internal_commission_factor := s_internal_commission_factor seed_settings;
     s_company_cost_factor := s_company_cost_factor seed_settings;
     s_profit_factor := profit;
     s_is_active := true;
     s_created_at := t |}.

(** A second active settings row, created a day after the seeded one. *)
Definition later_settings : SettingsRow numeric :=
  settings_row "f47ac10b-58cc-4372-a567-0e02b2c3daaa" (dec 70 2) 86400000000.

Definition two_active_db : Db numeric :=
  {| categories := seed_categories;
     devices := seed_devices;
     global_settings := [seed_settings; later_settings];
     projects := projects shop_db;
     inquiry_logs := [] |}.

(** A device on which the two calculations differ under the seeded
    settings. *)
Definition duct_unit : DeviceRow numeric :=
  device_row "d47ac10b-58cc-4372-a567-0e02b2c3d4ff" cat_vrf "VRF-Indoor-Duct"
    (dec 2100 0) (dec 5 1) (dec 30 0).

(** A store whose active settings have a zero profit factor, and one
    whose outdoor unit has negative attributes. *)
Definition zero_profit_row : SettingsRow numeric :=
  settings_row (s_id seed_settings) (dec 0 0) 0.

Definition zero_profit_db : Db numeric :=
  {| categories := seed_categories;
     devices := seed_devices;
     global_settings := [zero_profit_row];
     projects := projects shop_db;
     inquiry_logs := [] |}.

Definition negative_row : DeviceRow numeric :=
  device_row outdoor_unit cat_vrf "VRF-Outdoor-20HP"
    (dec (-15000) 0) (dec (-25) 1) (dec (-400) 0).

Definition negative_db : Db numeric :=
  {| categories := seed_categories;
     devices := [negative_row];
     global_settings := [seed_settings];
     projects := projects shop_db;
     inquiry_logs := [] |}.

(** One inquiry of [user1], in the given state. *)
Definition inquiry (i : uuid) (st : Status) (t : timestamptz) : InquiryLogRow number :=
  {| id := i;
     user_id := user1;
     device_id := outdoor_unit;
     project_id := project1;
     project_name_snapshot := None;
     category_name_snapshot := Some "VRF Systems";
     model_name_snapshot := Some "VRF-Outdoor-20HP";
     sell_price_eur_snapshot := JsNumber.of_Z 16056;
     status := st;
     admin_response_time := None;
     created_at := t |}.

Definition log1 : uuid := "c0000000-0000-4000-8000-000000000001".
Definition log2 : uuid := "c0000000-0000-4000-8000-000000000002".
Definition log3 : uuid := "c0000000-0000-4000-8000-000000000003".

(** The store of the shop as a client reads it, holding the given
    inquiry logs. *)
Definition ledger (logs : list (InquiryLogRow number)) : Db number :=
  set_inquiry_logs (client_view shop_db) logs.

Definition user2 : uuid := "a0000000-0000-4000-8000-000000000002".

(* ================================================================== *)
(** ** Projects, comments and the administration calls *)
(* ================================================================== *)

(** ['admin' | 'employee']. *)
Inductive Role := admin | employee.

Definition Role_eqb (a b : Role) : bool :=
  match a, b with
  | admin, admin | employee, employee => true
  | _, _ => false
  end.

(** A [projects] row with the creation time that the project queries
    order by. *)
Record ProjectsRow := {
  pj_id : uuid;
  pj_user_id : uuid;
  pj_name : string;
  pj_created_at : timestamptz
}.

Record CommentsRow := {
  cm_id : uuid;
  cm_project_id : uuid;
  cm_user_id : uuid;
  cm_user_full_name : string;
  cm_role : Role;
  cm_content : string;
  cm_is_read : bool;
  cm_created_at : timestamptz
}.

(** The tables behind the project and comment methods. *)
Record Board := {
  board_projects : list ProjectsRow;
  board_comments : list CommentsRow;
  board_logs : list (InquiryLogRow number)
}.

(** The store calls of these methods; the two calls inside the loop of
    [getAdminProjectSummaries] are made once per project. *)
Inductive Request :=
| InsertProject | SelectUserProjects | InsertComment | SelectProjectComments
| UpdateCommentsRead | SelectProjectIds | SelectUnreadComments
| SelectAllProjects
| SelectCommentsOf (projectId : uuid) | SelectLatestLogOf (projectId : uuid)
| UpdateSettings | SelectDevices.

(** What the program does not decide: which calls fail, the column
    defaults, the order of the scan behind each select, the signed-in
    caller ([auth.uid()] and whether its role is 'admin'), and the error
    the store raises for a null in a NOT NULL column. *)
Record Client := {
  request_fault : Request -> option PostgrestError;
  next_uuid : uuid;
  server_now : timestamptz;
  row_rank : Request -> nat -> nat;
  caller_uid : uuid;
  caller_is_admin : bool;
  null_violation : string -> PostgrestError
}.

(** The policy "Users can update own comments" of [comments],
    [USING (auth.uid() = user_id)]: the rows an UPDATE of the caller
    sees. *)
Definition comment_policy (cl : Client) (c : CommentsRow) : bool :=
  String.eqb (caller_uid cl) (cm_user_id c).

(** The policy "Users can read comments on their projects": the rows of
    [comments] the caller sees, those of the caller's own projects, and
    all of them for an administrator.  An UPDATE with a WHERE clause
    reaches no row that the policy for SELECT hides. *)
Definition comment_visible (cl : Client) (b : Board) (c : CommentsRow) : bool :=
  existsb (fun p => String.eqb (pj_id p) (cm_project_id c)
                    && String.eqb (pj_user_id p) (caller_uid cl))
          (board_projects b)
  || caller_is_admin cl.

(** The policy "Admins can update settings" of [global_settings]: every
    row for an administrator, none for any other caller (the policy for
    SELECT is the same). *)
Definition settings_policy (cl : Client) (s : SettingsRow number) : bool :=
  caller_is_admin cl.

(** Modelled from the spec: [Project] of [types.ts], with the fields of
    the object literals that [createProject] and [getUserProjects]
    return. *)
Record Project := {
  prj_id : uuid;
  prj_name : string;
  prj_userId : uuid;
  prj_createdAt : Z
}.

(** Modelled from the spec: [Comment] of [types.ts], with the fields of
    the object literals that [addComment] and [getProjectComments]
    return. *)
Record Comment := {
  com_id : uuid;
  com_projectId : uuid;
  com_userId : uuid;
  com_userFullName : string;
  com_role : Role;
  com_content : string;
  com_timestamp : Z;
  com_isRead : bool
}.

(** Modelled from the spec: [ProjectSummaryDTO] of [types.ts], with the
    fields that [getAdminProjectSummaries] pushes. *)
Record ProjectSummaryDTO := {
  sum_id : uuid;
  sum_name : string;
  sum_userId : uuid;
  sum_createdAt : Z;
  sum_unreadCount : nat;
  sum_lastActivity : Z
}.


Definition project_of_row (p : ProjectsRow) : Project :=
  {| prj_id := pj_id p;
     prj_name := pj_name p;
     prj_userId := pj_user_id p;
     prj_createdAt := getTime (pj_created_at p) |}.

Definition comment_of_row (c : CommentsRow) : Comment :=
  {| com_id := cm_id c;
     com_projectId := cm_project_id c;
     com_userId := cm_user_id c;
     com_userFullName := cm_user_full_name c;
     com_role := cm_role c;
     com_content := cm_content c;
     com_timestamp := getTime (cm_created_at c);
     com_isRead := cm_is_read c |}.

Definition createProject (cl : Client) (b : Board) (userId : uuid) (name : string)
  : outcome Project * Board :=
  match request_fault cl InsertProject with
  | Some e => (Throws (String.append "Failed to create project: " (message e)), b)
  | None =>
      let project :=
        {| pj_id := next_uuid cl;
           pj_user_id := userId;
           pj_name := name;
           pj_created_at := server_now cl |} in
      (Returns (project_of_row project),
       {| board_projects := board_projects b ++ [project];
          board_comments := board_comments b;
          board_logs := board_logs b |})
  end.

Definition getUserProjects (cl : Client) (b : Board) (userId : uuid)
  : outcome (list Project) :=
  let r :=
    select_rows (request_fault cl SelectUserProjects)
      (order_desc pj_created_at
         (scan (row_rank cl SelectUserProjects)
            (filter (fun p => String.eqb (pj_user_id p) userId)
                    (board_projects b)))) in
  match error r with
  | Some _ => Returns []
  | None =>
      Returns (map project_of_row
                   match data r with Some rows => rows | None => [] end)
  end.

Definition addComment (cl : Client) (b : Board)
    (projectId userId : uuid) (userFullName content : string) (role : Role)
  : outcome Comment * Board :=
  match request_fault cl InsertComment with
  | Some e => (Throws (String.append "Failed to add comment: " (message e)), b)
  | None =>
      let comment :=
        {| cm_id := next_uuid cl;
           cm_project_id := projectId;
           cm_user_id := userId;
           cm_user_full_name := userFullName;
           cm_role := role;
           cm_content := content;
           cm_is_read := false;
           cm_created_at := server_now cl |} in
      (Returns (comment_of_row comment),
       {| board_projects := board_projects b;
          board_comments := board_comments b ++ [comment];
          board_logs := board_logs b |})
  end.

(** [.order('created_at')]: ascending. *)
Definition order_asc {A} (key : A -> Z) (rows : list A) : list A :=
  order_desc (fun x => - key x) rows.

Definition getProjectComments (cl : Client) (b : Board) (projectId : uuid)
  : outcome (list Comment) :=
  let r :=
    select_rows (request_fault cl SelectProjectComments)
      (order_asc cm_created_at
         (scan (row_rank cl SelectProjectComments)
            (filter (fun c => String.eqb (cm_project_id c) projectId)
                    (board_comments b)))) in
  match error r with
  | Some _ => Returns []
  | None =>
      Returns (map comment_of_row
                   match data r with Some rows => rows | None => [] end)
  end.

Definition mark_read (c : CommentsRow) : CommentsRow :=
  {| cm_id := cm_id c;
     cm_project_id := cm_project_id c;
     cm_user_id := cm_user_id c;
     cm_user_full_name := cm_user_full_name c;
     cm_role := cm_role c;
     cm_content := cm_content c;
     cm_is_read := true;
     cm_created_at := cm_created_at c |}.

(** The UPDATE reaches the rows of the project with the target role
    that [comment_policy] and [comment_visible] let the caller see; the
    others are skipped without an error. *)
Definition markCommentsAsRead (cl : Client) (b : Board)
    (projectId : uuid) (readerRole : Role)
  : outcome unit * Board :=
  let targetRole := match readerRole with admin => employee | employee => admin end in
  match request_fault cl UpdateCommentsRead with
  | Some _ => (Returns tt, b)     (* the error is written to the console *)
  | None =>
      (Returns tt,
       {| board_projects := board_projects b;
          board_comments :=
            map (fun c => if String.eqb (cm_project_id c) projectId
                             && Role_eqb (cm_role c) targetRole
                             && comment_policy cl c
                             && comment_visible cl b c
                          then mark_read c else c)
                (board_comments b);
          board_logs := board_logs b |})
  end.

(** The two selects are used for what does not depend on the order of
    their rows, the set of project ids and the number of comments: they
    are written without their scan. *)
Definition getUnreadCommentsCountForUser (cl : Client) (b : Board) (userId : uuid)
  : outcome nat :=
  let projects_r :=
    select_rows (request_fault cl SelectProjectIds)
      (filter (fun p => String.eqb (pj_user_id p) userId) (board_projects b)) in
  match error projects_r with
  | Some _ => Returns 0%nat
  | None =>
      let projectIds :=
        map pj_id match data projects_r with Some rows => rows | None => [] end in
      match projectIds with
      | [] => Returns 0%nat
      | _ =>
          let r :=
            select_rows (request_fault cl SelectUnreadComments)
              (filter (fun c => existsb (String.eqb (cm_project_id c)) projectIds
                                && Role_eqb (cm_role c) admin
                                && negb (cm_is_read c))
                      (board_comments b)) in
          match error r with
          | Some _ => Returns 0%nat
          | None =>
              Returns match data r with
                      | Some rows => List.length rows
                      | None => 0%nat
                      end
          end
      end
  end.

(** [Array.prototype.sort] with the comparator [(a, b) => key b - key a]:
    decreasing keys, equal keys in their former order. *)
Fixpoint insert_sorted {A} (key : A -> Z) (x : A) (l : list A) : list A :=
  match l with
  | [] => [x]
  | y :: l' => if key y <=? key x then x :: l else y :: insert_sorted key x l'
  end.

Definition sort_desc {A} (key : A -> Z) (l : list A) : list A :=
  fold_right (insert_sorted key) [] l.

(** One turn of the loop of [getAdminProjectSummaries]. *)
Definition summary_of (cl : Client) (b : Board) (p : ProjectsRow)
  : ProjectSummaryDTO :=
  let comments_r :=
    select_rows (request_fault cl (SelectCommentsOf (pj_id p)))
      (scan (row_rank cl (SelectCommentsOf (pj_id p)))
         (filter (fun c => String.eqb (cm_project_id c) (pj_id p))
                 (board_comments b))) in
  let comments := match data comments_r with Some rows => rows | None => [] end in
  let unreadCount :=
    List.length
      (filter (fun c => Role_eqb (cm_role c) employee && negb (cm_is_read c))
              comments) in
  let lastCommentTime :=
    match rev comments with
    | c :: _ => getTime (cm_created_at c)
    | [] => 0
    end in
  let logs_r :=
    select_rows (request_fault cl (SelectLatestLogOf (pj_id p)))
      (firstn 1 (order_desc created_at
                   (scan (row_rank cl (SelectLatestLogOf (pj_id p)))
                      (filter (fun l => String.eqb (project_id l) (pj_id p))
                              (board_logs b))))) in
  let lastLogTime :=
    match data logs_r with
    | Some (l :: _) => getTime (created_at l)
    | _ => 0
    end in
  {| sum_id := pj_id p;
     sum_name := pj_name p;
     sum_userId := pj_user_id p;
     sum_createdAt := getTime (pj_created_at p);
     sum_unreadCount := unreadCount;
     sum_lastActivity :=
       Z.max (Z.max (getTime (pj_created_at p)) lastCommentTime) lastLogTime |}.

Definition getAdminProjectSummaries (cl : Client) (b : Board)
  : outcome (list ProjectSummaryDTO) :=
  let projects_r :=
    select_rows (request_fault cl SelectAllProjects)
      (order_desc pj_created_at
         (scan (row_rank cl SelectAllProjects) (board_projects b))) in
  match error projects_r with
  | Some _ => Returns []
  | None =>
      let summaries :=
        map (summary_of cl b)
            match data projects_r with Some rows => rows | None => [] end in
      Returns (sort_desc sum_lastActivity summaries)
  end.

(** The columns [updateSettings] writes, with the coefficient sent for
    each. *)
Definition settings_update (S : GlobalSettings) : list (string * number) :=
  [ ("discount_multiplier", discountMultiplier S);
    ("freight_rate_per_length_eur", freightRatePerLengthEUR S);
    ("customs_numerator", customsNumerator S);
    ("customs_denominator", customsDenominator S);
    ("warranty_rate", warrantyRate S);
    ("internal_commission_factor", internalCommissionFactor S);
    ("company_cost_factor", companyCostFactor S);
    ("profit_factor", profitFactor S) ].

(** The first column whose value JSON.stringify sends as [null]: NaN
    and the infinities have no JSON numeral. *)
Definition first_null (S : GlobalSettings) : option string :=
  option_map fst (find (fun cv => negb (is_finite (snd cv))) (settings_update S)).

(** The settings as the store receives them. *)
Definition as_stored (S : GlobalSettings) : GlobalSettings :=
  {| gs_id := gs_id S;
     gs_isActive := gs_isActive S;
     discountMultiplier := through_json (discountMultiplier S);
     freightRatePerLengthEUR := through_json (freightRatePerLengthEUR S);
     customsNumerator := through_json (customsNumerator S);
     customsDenominator := through_json (customsDenominator S);
     warrantyRate := through_json (warrantyRate S);
     internalCommissionFactor := through_json (internalCommissionFactor S);
     companyCostFactor := through_json (companyCostFactor S);
     profitFactor := through_json (profitFactor S) |}.

Definition write_settings (S : GlobalSettings) (s : SettingsRow number)
  : SettingsRow number :=
  {| s_id := s_id s;
     s_discount_multiplier := discountMultiplier (as_stored S);
     s_freight_rate_per_length_eur := freightRatePerLengthEUR (as_stored S);
     s_customs_numerator := customsNumerator (as_stored S);
     s_customs_denominator := customsDenominator (as_stored S);
     s_warranty_rate := warrantyRate (as_stored S);
     s_internal_commission_factor := internalCommissionFactor (as_stored S);
     s_company_cost_factor := companyCostFactor (as_stored S);
     s_profit_factor := profitFactor (as_stored S);
     s_is_active := s_is_active s;
     s_created_at := s_created_at s |}.

Definition set_global_settings {num} (db : Db num) (rows : list (SettingsRow num))
  : Db num :=
  {| categories := categories db;
     devices := devices db;
     global_settings := rows;
     projects := projects db;
     inquiry_logs := inquiry_logs db |}.

(** The rows [.eq('id', newSettings.id)] selects among those the caller
    may update. *)
Definition settings_target (cl : Client) (S : GlobalSettings)
    (s : SettingsRow number) : bool :=
  String.eqb (s_id s) (gs_id S) && settings_policy cl s.

(** The eight columns are NOT NULL: a row that would receive a null is
    rejected, and with it the whole update. *)
Definition updateSettings (cl : Client) (db : Db number) (newSettings : GlobalSettings)
  : outcome unit * Db number :=
  match request_fault cl UpdateSettings with
  | Some e => (Throws (String.append "Failed to update settings: " (message e)), db)
  | None =>
      match filter (settings_target cl newSettings) (global_settings db),
            first_null newSettings with
      | _ :: _, Some column =>
          (Throws (String.append "Failed to update settings: "
                                 (message (null_violation cl column))), db)
      | _, _ =>
          (Returns tt,
           set_global_settings db
             (map (fun s => if settings_target cl newSettings s
                            then write_settings newSettings s else s)
                  (global_settings db)))
      end
  end.



(** The shape of every run of [requestPrice]. *)
Inductive requestPrice_run (env : Env) (db : Db number)
    (userId deviceId projectId : uuid)
  : outcome RequestStatusDTO * Db number -> Prop :=
| run_throws (msg : string) :
    requestPrice_run env db userId deviceId projectId (Throws msg, db)
| run_existing (device : DeviceRow number) (log : InquiryLogRow number) :
    device_by_id db deviceId = [device] ->
    filter (is_pending_for userId deviceId projectId) (inquiry_logs db) = [log] ->
    requestPrice_run env db userId deviceId projectId
      (Returns {| requestId := id log;
                  dto_deviceId := device_id log;
                  dto_projectId := project_id log;
                  dto_status := status log;
                  sellPriceEUR := None;
                  timestamp := getTime (created_at log) |}, db)
| run_created (device : DeviceRow number) (settings : SettingsRow number)
              (category : string) :
    device_by_id db deviceId = [device] ->
    active_settings db = [settings] ->
    category <> "" ->
    (category = "Unknown" \/
     exists c, In c (categories db) /\ c_id c = d_category_id device /\
               c_name c = category) ->
    is_finite (calculatePriceInternal (toDevice device) (toSettings settings)) = true ->
    requestPrice_run env db userId deviceId projectId
      (Returns {| requestId := gen_random_uuid env;
                  dto_deviceId := deviceId;
                  dto_projectId := projectId;
                  dto_status := pending;
                  sellPriceEUR := None;
                  timestamp := getTime (now env) |},
       set_inquiry_logs db
         (inquiry_logs db ++
          [ {| id := gen_random_uuid env;
               user_id := userId;
               device_id := deviceId;
               project_id := projectId;
               project_name_snapshot := None;
               category_name_snapshot := Some category;
               model_name_snapshot := Some (d_model_name device);
               sell_price_eur_snapshot :=
                 through_json
                   (calculatePriceInternal (toDevice device) (toSettings settings));
               status := pending;
               admin_response_time := None;
               created_at := now env |} ])).

(** What a decision leaves of an entry: all but status and price. *)
Definition entry_identity (e : RequestStatusDTO) : uuid * uuid * uuid * Z :=
  (requestId e, dto_deviceId e, dto_projectId e, timestamp e).

(** All eight coefficients of a row are finite numbers. *)
Definition coefficients_finite (s : SettingsRow number) : bool :=
  forallb is_finite
    [ s_discount_multiplier s; s_freight_rate_per_length_eur s;
      s_customs_numerator s; s_customs_denominator s; s_warranty_rate s;
      s_internal_commission_factor s; s_company_cost_factor s;
      s_profit_factor s ].

Definition admin1 : uuid := "a0000000-0000-4000-8000-0000000000ad".

(** The client of the signed-in user [uid]; its scans return the rows in
    the order of the list. *)
Definition client_as (uid : uuid) (is_admin : bool)
    (failing : Request -> bool) (new_id : uuid) (t : timestamptz)
  : Client :=
  {| request_fault := fun c => if failing c then Some network_error else None;
     next_uuid := new_id;
     server_now := t;
     row_rank := fun _ n => n;
     caller_uid := uid;
     caller_is_admin := is_admin;
     null_violation :=
       fun column => {| message := String.append "null value in column " column |} |}.

(** The client of the administrator [admin1]. *)
Definition client_of (failing : Request -> bool) (new_id : uuid) (t : timestamptz)
  : Client :=
  client_as admin1 true failing new_id t.

(** The same client with another order of scan. *)
Definition scanning (rank : nat -> nat) (cl : Client) : Client :=
  {| request_fault := request_fault cl;
     next_uuid := next_uuid cl;
     server_now := server_now cl;
     row_rank := fun _ => rank;
     caller_uid := caller_uid cl;
     caller_is_admin := caller_is_admin cl;
     null_violation := null_violation cl |}.

Definition no_request : Request -> bool := fun _ => false.

(** New settings: the seeded coefficients with a profit factor of 0.5,
    and the same with an infinite one. *)
Definition half_profit : GlobalSettings :=
  {| gs_id := gs_id worked_settings;
     gs_isActive := true;
     discountMultiplier := discountMultiplier worked_settings;
     freightRatePerLengthEUR := freightRatePerLengthEUR worked_settings;
     customsNumerator := customsNumerator worked_settings;
     customsDenominator := customsDenominator worked_settings;
     warrantyRate := warrantyRate worked_settings;
     internalCommissionFactor := internalCommissionFactor worked_settings;
     companyCostFactor := companyCostFactor worked_settings;
     profitFactor := of_decimal 5 1 |}.

Definition infinite_profit : GlobalSettings :=
  {| gs_id := gs_id worked_settings;
     gs_isActive := true;
     discountMultiplier := discountMultiplier worked_settings;
     freightRatePerLengthEUR := freightRatePerLengthEUR worked_settings;
     customsNumerator := customsNumerator worked_settings;
     customsDenominator := customsDenominator worked_settings;
     warrantyRate := warrantyRate worked_settings;
     internalCommissionFactor := internalCommissionFactor worked_settings;
     companyCostFactor := companyCostFactor worked_settings;
     profitFactor := Infinity |}.

(** A comment on [project1], and a board with that project, two
    comments and one inquiry. *)
Definition note (i : uuid) (author : uuid) (r : Role) (read : bool) (t : timestamptz)
  : CommentsRow :=
  {| cm_id := i;
     cm_project_id := project1;
     cm_user_id := author;
     cm_user_full_name := "Ali";
     cm_role := r;
     cm_content := "When can we expect the quote?";
     cm_is_read := read;
     cm_created_at := t |}.

Definition note1 : uuid := "e0000000-0000-4000-8000-000000000001".
Definition note2 : uuid := "e0000000-0000-4000-8000-000000000002".
Definition note3 : uuid := "e0000000-0000-4000-8000-000000000003".

Definition desk : Board :=
  {| board_projects :=
       [ {| pj_id := project1; pj_user_id := user1; pj_name := "Tower A";
            pj_created_at := 1000000 |} ];
     board_comments :=
       [ note note1 user1 employee false 2000000;
         note note2 admin1 admin false 3000000 ];
     board_logs := [ inquiry log1 pending 2500000 ] |}.

(** Two comment rows that differ in nothing but the [is_read] flag. *)
Definition same_comment (c c' : CommentsRow) : Prop :=
  cm_id c' = cm_id c /\ cm_project_id c' = cm_project_id c /\
  cm_user_id c' = cm_user_id c /\ cm_user_full_name c' = cm_user_full_name c /\
  cm_role c' = cm_role c /\ cm_content c' = cm_content c /\
  cm_created_at c' = cm_created_at c.

(** The rows [getUnreadCommentsCountForUser] counts: the unread comments
    in the role 'admin' on the projects of the user. *)
Definition unread_for (b : Board) (userId : uuid) (c : CommentsRow) : bool :=
  existsb (String.eqb (cm_project_id c))
          (map pj_id (filter (fun p => String.eqb (pj_user_id p) userId)
                             (board_projects b)))
  && Role_eqb (cm_role c) admin && negb (cm_is_read c).

(** Increasing order of [key]. *)
Definition asc {A} (key : A -> Z) (a b : A) : Prop := key a <= key b.



(** A finite number above zero; and a number that is [+0], finite and
    above zero, or [+Infinity]. *)
Definition is_positive (x : number) : bool :=
  match x with S754_finite false _ _ => true | _ => false end.

Definition is_nonnegative (x : number) : bool :=
  match x with
  | S754_finite false _ _ | S754_zero false | S754_infinity false => true
  | _ => false
  end.

(* ================================================================== *)
(** * Properties *)
(* ================================================================== *)

(** ** Numbers *)

Lemma Qpower_2_nonneg (e : Z) :
  0 <= e -> (Qpower (2 # 1) e == inject_Z (2 ^ e))%Q.
Proof.
  intros He. symmetry. apply (Zpower_Qpower 2 e He).
Qed.

Lemma Qpower_2_neg (p : positive) :
  (Qpower (2 # 1) (Zneg p) == / inject_Z (2 ^ Zpos p))%Q.
Proof.
  change (Zneg p) with (- Zpos p).
  rewrite Qpower_opp. apply Qinv_comp. apply Qpower_2_nonneg. lia.
Qed.

Lemma pow2_pos_Q (p : positive) : (0 < inject_Z (2 ^ Zpos p))%Q.
Proof.
  change 0%Q with (inject_Z 0). rewrite <- Zlt_Qlt.
  apply Z.pow_pos_nonneg; lia.
Qed.

#[local] Instance signed_Proper (s : bool) :
  Morphisms.Proper (Qeq ==> Qeq)%signature (signed s).
Proof. intros a b E. destruct s; cbn; rewrite E; reflexivity. Qed.

(** [of_int] is exact. *)
Lemma value_of_int (s : bool) (z : Z) :
  0 <= z -> (value (of_int s z) == signed s (inject_Z z))%Q.
Proof.
  intros Hz. destruct z as [|p|p]; [| |lia].
  - cbn. destruct s; reflexivity.
  - unfold of_int. destruct (prec - Zdigits2 (Zpos p)) as [|k|k] eqn:Hk.
    + cbn. destruct s; cbn; ring.
    + unfold value.
      assert (E : (inject_Z (Zpos (shift_pos k p)) * Qpower (2 # 1) (Zneg k)
                   == inject_Z (Zpos p))%Q).
      { rewrite Qpower_2_neg, shift_pos_correct, Z.mul_comm, inject_Z_mult.
        change (Z.pow_pos 2 k) with (2 ^ Z.pos k).
        pose proof (pow2_pos_Q k) as H0.
        set (c := inject_Z (2 ^ Z.pos k)) in *.
        field. intro H. rewrite H in H0. apply (Qlt_irrefl 0), H0. }
      rewrite E. reflexivity.
    + cbn. destruct s; cbn; ring.
Qed.

Lemma ceiling_bounds_Q (num den n : Z) :
  0 < den -> (n - 1) * den < num <= n * den ->
  (inject_Z n - 1 < inject_Z num / inject_Z den <= inject_Z n)%Q.
Proof.
  intros Hd [H1 H2].
  assert (Hdq : (0 < inject_Z den)%Q)
    by (change 0%Q with (inject_Z 0); rewrite <- Zlt_Qlt; lia).
  split.
  - apply Qlt_shift_div_l; [exact Hdq|].
    change 1%Q with (inject_Z 1). unfold Qminus.
    rewrite <- inject_Z_opp, <- inject_Z_plus, <- inject_Z_mult, <- Zlt_Qlt.
    exact H1.
  - apply Qle_shift_div_r; [exact Hdq|].
    rewrite <- inject_Z_mult, <- Zle_Qle. exact H2.
Qed.

(** [Math_ceil] of a finite number is the least integer not below it. *)
Lemma Math_ceil_is_ceiling (x : number) :
  is_finite x = true ->
  exists n : Z,
    (value (Math_ceil x) == inject_Z n)%Q /\
    (inject_Z n - 1 < value x <= inject_Z n)%Q.
Proof.
  intros Hfin. destruct x as [s| | |s m e]; try discriminate.
  - exists 0. cbn. repeat split; try reflexivity; discriminate.
  - unfold Math_ceil. destruct (0 <=? e) eqn:He.
    + apply Z.leb_le in He.
      exists (if s then - (Zpos m * 2 ^ e) else Zpos m * 2 ^ e).
      assert (E : (value (S754_finite s m e)
                   == inject_Z (if s then - (Zpos m * 2 ^ e) else Zpos m * 2 ^ e))%Q).
      { unfold value. rewrite (Qpower_2_nonneg e He), <- inject_Z_mult.
        destruct s; cbn [signed]; [rewrite inject_Z_opp|]; reflexivity. }
      split; [exact E|]. rewrite E. split.
      * apply Qlt_minus_iff. ring_simplify. reflexivity.
      * apply Qle_refl.
    + apply Z.leb_gt in He. destruct e as [|e|e]; try lia.
      cbn [Z.opp].
      rewrite Z.shiftr_div_pow2 by lia.
      set (d := 2 ^ Z.pos e).
      assert (Hd : 0 < d) by (apply Z.pow_pos_nonneg; lia).
      pose proof (Z.div_mod (Zpos m) d ltac:(lia)) as Hdm.
      pose proof (Z.mod_pos_bound (Zpos m) d Hd) as Hr.
      set (q := Zpos m / d) in *.
      assert (Hq : 0 <= q) by (apply Z.div_pos; lia).
      assert (V : forall s', (value (S754_finite s' m (Zneg e))
                   == signed s' (inject_Z (Zpos m) / inject_Z d))%Q).
      { intros s'. unfold value. rewrite Qpower_2_neg. reflexivity. }
      destruct s.
      * exists (- q). rewrite value_of_int by exact Hq. cbn [signed].
        split; [rewrite inject_Z_opp; reflexivity|].
        rewrite V. cbn [signed].
        pose proof (ceiling_bounds_Q (- Zpos m) d (- q) Hd) as B.
        assert (Hb : (- q - 1) * d < - Z.pos m <= - q * d) by nia.
        specialize (B Hb).
        setoid_replace (- (inject_Z (Z.pos m) / inject_Z d))%Q
          with (inject_Z (- Z.pos m) / inject_Z d)%Q
          by (rewrite inject_Z_opp; unfold Qdiv; ring).
        exact B.
      * rewrite Z.shiftl_mul_pow2 by lia. fold d.
        destruct (q * d =? Zpos m) eqn:Hex.
        -- apply Z.eqb_eq in Hex. exists q.
           rewrite value_of_int by exact Hq. cbn [signed].
           split; [reflexivity|]. rewrite V. cbn [signed].
           apply ceiling_bounds_Q; [exact Hd|nia].
        -- apply Z.eqb_neq in Hex. exists (q + 1).
           rewrite value_of_int by lia. cbn [signed].
           split; [reflexivity|]. rewrite V. cbn [signed].
           apply ceiling_bounds_Q; [exact Hd|nia].
Qed.

(** The boundary values of the specification: 100.0 stays 100, and
    100.0001 becomes 101; so does 100.4, which rounding to nearest
    would take to 100. *)
Lemma Math_ceil_boundary :
  Math_ceil (of_decimal 100 0) = of_Z 100 /\
  Math_ceil (of_decimal 1000001 4) = of_Z 101 /\
  Math_ceil (of_decimal 1004 1) = of_Z 101.
Proof. repeat split; vm_compute; reflexivity. Qed.

(** Infinity and NaN spread through the operators. *)
Lemma div_by_zero_not_finite (x : number) (s : bool) :
  is_finite (div x (S754_zero s)) = false.
Proof. destruct x; reflexivity. Qed.

Lemma div_not_finite_l (x y : number) :
  is_finite x = false -> is_finite (div x y) = false.
Proof. destruct x, y; cbn; intros H; try reflexivity; discriminate. Qed.

Lemma mul_not_finite_r (x y : number) :
  is_finite y = false -> is_finite (mul x y) = false.
Proof. destruct x, y; cbn; intros H; try reflexivity; discriminate. Qed.

Lemma add_not_finite_l (x y : number) :
  is_finite x = false -> is_finite (add x y) = false.
Proof.
  destruct x as [| [] | |], y as [| [] | |]; cbn; intros H;
    try reflexivity; discriminate.
Qed.

Lemma add_not_finite_r (x y : number) :
  is_finite y = false -> is_finite (add x y) = false.
Proof.
  destruct x as [| [] | |], y as [| [] | |]; cbn; intros H;
    try reflexivity; discriminate.
Qed.

Lemma Math_ceil_not_finite (x : number) :
  is_finite x = false -> is_finite (Math_ceil x) = false.
Proof. destruct x; cbn; intros H; try reflexivity; discriminate. Qed.

Lemma is_zero_inv (x : number) : is_zero x = true -> exists s, x = S754_zero s.
Proof. destruct x; try discriminate. eauto. Qed.

(** The NUMERIC division raises exactly on a zero divisor. *)
Lemma numeric_div_zero (a b : numeric) :
  PgNumeric.unscaled b = 0 -> Sql.numeric_div a b = Throws "division by zero".
Proof.
  intros H. unfold Sql.numeric_div, PgNumeric.div. rewrite H. reflexivity.
Qed.

Lemma numeric_div_nonzero (a b : numeric) :
  PgNumeric.unscaled b <> 0 -> exists q, Sql.numeric_div a b = Returns q.
Proof.
  intros H. unfold Sql.numeric_div, PgNumeric.div.
  destruct (PgNumeric.unscaled b =? 0) eqn:E.
  - apply Z.eqb_eq in E. contradiction.
  - eauto.
Qed.

(** Quotients as the server prints them. *)
Lemma numeric_div_examples :
  PgNumeric.div (PgNumeric.of_Z 2) (PgNumeric.of_Z 3)
  = Some (dec 66666666666666666667 20) /\
  PgNumeric.div (PgNumeric.of_Z 350000) (PgNumeric.of_Z 150000)
  = Some (dec 23333333333333333 16) /\
  PgNumeric.div (PgNumeric.of_Z 10) (PgNumeric.of_Z 3)
  = Some (dec 33333333333333333 16) /\
  PgNumeric.div (dec 5 1) (PgNumeric.of_Z 0) = None.
Proof. repeat split; vm_compute; reflexivity. Qed.

(** The NUMERIC [ceil] is the least integer not below its argument. *)
Lemma numeric_ceil_is_ceiling (a : numeric) :
  PgNumeric.dscale (PgNumeric.ceil a) = 0%nat /\
  (inject_Z (PgNumeric.unscaled (PgNumeric.ceil a)) - 1
   < PgNumeric.value a
   <= inject_Z (PgNumeric.unscaled (PgNumeric.ceil a)))%Q.
Proof.
  split; [reflexivity|].
  unfold PgNumeric.value, PgNumeric.ceil. cbn [PgNumeric.unscaled PgNumeric.dscale].
  set (den := PgNumeric.pow10 (PgNumeric.dscale a)).
  assert (Hd : 0 < den) by (apply Z.pow_pos_nonneg; lia).
  pose proof (Z.div_mod (- PgNumeric.unscaled a) den ltac:(lia)) as Hdm.
  pose proof (Z.mod_pos_bound (- PgNumeric.unscaled a) den Hd) as Hr.
  apply ceiling_bounds_Q; [exact Hd|]. nia.
Qed.

(** ** The calculation *)

(** C1.  For every device and every parameter set, [calculateBreakdown]
    computes the eight steps in the order of the specification, each
    from the inputs and the earlier steps only:
    companyPrice = factoryPrice * discountMultiplier,
    shipment = length * freightRatePerLength,
    custom = weight * (customsNumerator / customsDenominator),
    warranty = companyPrice * warrantyRate,
    subtotal = companyPrice + shipment + custom + warranty,
    commission = subtotal / internalCommissionFactor,
    office = commission / companyCostFactor,
    sellPrice = Math.ceil(office / profitFactor);
    and the rounding is the ceiling: when the quotient is finite,
    sellPrice is the integer n with n - 1 < quotient <= n. *)
Theorem calculateBreakdown_steps (device : Device) (settings : GlobalSettings) :
  let st := steps (calculateBreakdown device settings) in
  companyPrice st = mul (factoryPriceEUR device) (discountMultiplier settings) /\
  shipment st = mul (length device) (freightRatePerLengthEUR settings) /\
  custom st = mul (weight device)
                  (div (customsNumerator settings) (customsDenominator settings)) /\
  warranty st = mul (companyPrice st) (warrantyRate settings) /\
  subtotal st = add (add (add (companyPrice st) (shipment st)) (custom st))
                    (warranty st) /\
  commission st = div (subtotal st) (internalCommissionFactor settings) /\
  office st = div (commission st) (companyCostFactor settings) /\
  sellPrice st = Math_ceil (div (office st) (profitFactor settings)) /\
  (is_finite (div (office st) (profitFactor settings)) = true ->
   exists n : Z,
     (value (sellPrice st) == inject_Z n)%Q /\
     (inject_Z n - 1 < value (div (office st) (profitFactor settings))
      <= inject_Z n)%Q).
Proof.
  cbv zeta. repeat (split; [reflexivity|]).
  intros Hfin. cbn [steps calculateBreakdown sellPrice office commission
                    subtotal companyPrice shipment custom warranty] in *.
  apply Math_ceil_is_ceiling. exact Hfin.
Qed.

Lemma calculateBreakdown_steps_witness :
  exists n : Z,
    (value (sellPrice (steps (calculateBreakdown worked_device worked_settings)))
     == inject_Z n)%Q /\
    (inject_Z n - 1
     < value (div (office (steps (calculateBreakdown worked_device worked_settings)))
                  (profitFactor worked_settings))
     <= inject_Z n)%Q.
Proof.
  apply (calculateBreakdown_steps worked_device worked_settings).
  vm_compute. reflexivity.
Defined.

(** C2.  The worked example: factoryPrice 15000, length 2.5, weight 400
    under the seeded parameters 0.38, 1000, 350000, 150000, 0.05, 0.95,
    0.95, 0.65 gives companyPrice 5700, shipment 2500, custom 933.33...,
    warranty 285, subtotal 9418.33..., commission 9914.03..., office
    10435.82..., a quotient 16055.11... and sellPrice 16056. *)
Theorem worked_example :
  let st := steps (calculateBreakdown worked_device worked_settings) in
  companyPrice st = of_Z 5700 /\
  shipment st = of_Z 2500 /\
  (93333 # 100 <= value (custom st) < 93334 # 100)%Q /\
  warranty st = of_Z 285 /\
  (941833 # 100 <= value (subtotal st) < 941834 # 100)%Q /\
  (991403 # 100 <= value (commission st) < 991404 # 100)%Q /\
  (1043582 # 100 <= value (office st) < 1043583 # 100)%Q /\
  (1605511 # 100 <= value (div (office st) (profitFactor worked_settings))
                  < 1605512 # 100)%Q /\
  sellPrice st = of_Z 16056 /\
  (value (of_Z 16056) == 16056 # 1)%Q.
Proof.
  cbv zeta.
  repeat split; try (vm_compute; reflexivity); vm_compute; discriminate.
Qed.

Lemma seeded_rows_read_as_example :
  option_map (fun d => toDevice (client_device d)) (hd_error seed_devices)
  = Some worked_device /\
  toSettings (client_settings seed_settings) = worked_settings.
Proof. split; vm_compute; reflexivity. Qed.

(** C4, as stated, fails: the calculation accepts a zero profit factor
    and returns a breakdown whose sellPrice is Infinity, and it accepts
    a device with negative factory price, length and weight and returns
    the price -16055; only the SQL function fails on the zero divisor. *)
Lemma calculation_accepts_invalid_input :
  (exists b,
      getDeviceBreakdown (env_of no_call log1 0) (client_view zero_profit_db)
                         outdoor_unit = Returns b /\
      is_zero (p_PF (params b)) = true /\
      sellPrice (steps b) = Infinity) /\
  (forall msg,
      getDeviceBreakdown (env_of no_call log1 0) (client_view zero_profit_db)
                         outdoor_unit <> Throws msg) /\
  (exists b,
      getDeviceBreakdown (env_of no_call log1 0) (client_view negative_db)
                         outdoor_unit = Returns b /\
      ltb (in_P (inputs b)) (of_Z 0) = true /\
      ltb (in_L (inputs b)) (of_Z 0) = true /\
      ltb (in_W (inputs b)) (of_Z 0) = true /\
      sellPrice (steps b) = of_Z (-16055)) /\
  (forall msg,
      getDeviceBreakdown (env_of no_call log1 0) (client_view negative_db)
                         outdoor_unit <> Throws msg) /\
  (forall env,
      Sql.calculate_price_logic env zero_profit_db outdoor_unit
      = Throws "division by zero") /\
  (forall env, exists row,
      Sql.calculate_price_logic env negative_db outdoor_unit = Returns row /\
      Sql.sell_price row = PgNumeric.of_Z (-16055)).
Proof.
  split; [|split; [|split; [|split; [|split]]]].
  - eexists. split; [vm_compute; reflexivity|]. split; reflexivity.
  - intros msg. vm_compute. discriminate.
  - eexists. split; [vm_compute; reflexivity|]. repeat split; vm_compute; reflexivity.
  - intros msg. vm_compute. discriminate.
  - intros env. vm_compute. reflexivity.
  - intros env. eexists. split; vm_compute; reflexivity.
Qed.

(** C4, amended.  The client-side calculation validates nothing and
    never fails: once the device row and the active settings row are
    read, [getDeviceBreakdown] returns the breakdown of [calculateBreakdown]
    whatever the values are; when customsDenominator,
    internalCommissionFactor, companyCostFactor or profitFactor is zero,
    the sellPrice it returns is Infinity or NaN.  The SQL calculation
    raises [division by zero] exactly when one of these four is zero. *)
Theorem calculation_without_validation :
  (forall env db deviceId device settings,
      fault env SelectDevice = None ->
      fault env SelectSettings = None ->
      device_by_id db deviceId = [device] ->
      active_settings db = [settings] ->
      getDeviceBreakdown env db deviceId
      = Returns (calculateBreakdown (toDevice device) (toSettings settings))) /\
  (forall device settings,
      is_zero (customsDenominator settings) = true \/
      is_zero (internalCommissionFactor settings) = true \/
      is_zero (companyCostFactor settings) = true \/
      is_zero (profitFactor settings) = true ->
      is_finite (calculatePriceInternal device settings) = false) /\
  (forall d s,
      PgNumeric.unscaled (s_customs_denominator s) = 0 \/
      PgNumeric.unscaled (s_internal_commission_factor s) = 0 \/
      PgNumeric.unscaled (s_company_cost_factor s) = 0 \/
      PgNumeric.unscaled (s_profit_factor s) = 0 ->
      Sql.price_of_rows d s = Throws "division by zero") /\
  (forall d s,
      PgNumeric.unscaled (s_customs_denominator s) <> 0 ->
      PgNumeric.unscaled (s_internal_commission_factor s) <> 0 ->
      PgNumeric.unscaled (s_company_cost_factor s) <> 0 ->
      PgNumeric.unscaled (s_profit_factor s) <> 0 ->
      exists row, Sql.price_of_rows d s = Returns row).
Proof.
  split; [|split; [|split]].
  - intros env db deviceId device settings Fd Fs Hd Hs.
    unfold getDeviceBreakdown. rewrite Fd, Fs, Hd, Hs. reflexivity.
  - intros device settings H.
    unfold calculatePriceInternal, calculateBreakdown. cbn [steps sellPrice].
    apply Math_ceil_not_finite.
    destruct H as [H | [H | [H | H]]]; apply is_zero_inv in H as [s H]; rewrite H.
    + apply div_not_finite_l, div_not_finite_l, div_not_finite_l.
      apply add_not_finite_l, add_not_finite_r, mul_not_finite_r.
      apply div_by_zero_not_finite.
    + apply div_not_finite_l, div_not_finite_l, div_by_zero_not_finite.
    + apply div_not_finite_l, div_by_zero_not_finite.
    + apply div_by_zero_not_finite.
  - intros d s H. unfold Sql.price_of_rows.
    destruct (Z.eq_dec (PgNumeric.unscaled (s_customs_denominator s)) 0) as [E1|E1].
    { rewrite (numeric_div_zero _ _ E1). reflexivity. }
    destruct (numeric_div_nonzero (s_customs_numerator s) _ E1) as [q1 ->].
    cbn [bind].
    destruct (Z.eq_dec (PgNumeric.unscaled (s_internal_commission_factor s)) 0)
      as [E2|E2].
    { rewrite (numeric_div_zero _ _ E2). reflexivity. }
    match goal with |- context [Sql.numeric_div ?a (s_internal_commission_factor s)] =>
      destruct (numeric_div_nonzero a _ E2) as [q2 ->] end.
    cbn [bind].
    destruct (Z.eq_dec (PgNumeric.unscaled (s_company_cost_factor s)) 0) as [E3|E3].
    { rewrite (numeric_div_zero _ _ E3). reflexivity. }
    destruct (numeric_div_nonzero q2 _ E3) as [q3 ->].
    cbn [bind].
    destruct (Z.eq_dec (PgNumeric.unscaled (s_profit_factor s)) 0) as [E4|E4].
    { rewrite (numeric_div_zero _ _ E4). reflexivity. }
    tauto.
  - intros d s E1 E2 E3 E4. unfold Sql.price_of_rows.
    destruct (numeric_div_nonzero (s_customs_numerator s) _ E1) as [q1 ->].
    cbn [bind].
    match goal with |- context [Sql.numeric_div ?a (s_internal_commission_factor s)] =>
      destruct (numeric_div_nonzero a _ E2) as [q2 ->] end.
    cbn [bind].
    destruct (numeric_div_nonzero q2 _ E3) as [q3 ->].
    cbn [bind].
    destruct (numeric_div_nonzero q3 _ E4) as [q4 ->].
    cbn [bind]. eauto.
Qed.

Lemma calculation_without_validation_witness :
  getDeviceBreakdown (env_of no_call log1 0) (client_view zero_profit_db) outdoor_unit
  = Returns (calculateBreakdown
               worked_device (toSettings (client_settings zero_profit_row))) /\
  is_finite (calculatePriceInternal
               worked_device (toSettings (client_settings zero_profit_row))) = false /\
  Sql.price_of_rows negative_row zero_profit_row = Throws "division by zero" /\
  (exists row, Sql.price_of_rows negative_row seed_settings = Returns row).
Proof.
  destruct calculation_without_validation as (H1 & H2 & H3 & H4).
  split; [|split; [|split]].
  - apply (H1 (env_of no_call log1 0) (client_view zero_profit_db) outdoor_unit
              (client_device (device_row outdoor_unit cat_vrf "VRF-Outdoor-20HP"
                                         (dec 15000 0) (dec 25 1) (dec 400 0)))
              (client_settings zero_profit_row));
      reflexivity.
  - apply H2. right. right. right. reflexivity.
  - apply H3. right. right. right. reflexivity.
  - apply H4; vm_compute; discriminate.
Defined.

(** ** The two copies of the calculation *)

Lemma maybeSingle_data (R : Type) (f : option PostgrestError) (rows : list R) (x : R) :
  data (maybeSingle (select_rows f rows)) = Some x -> f = None /\ rows = [x].
Proof.
  destruct f as [e|]; cbn; [discriminate|].
  destruct rows as [|y [|z rows]]; cbn; try discriminate.
  intros H. inversion H. auto.
Qed.

Lemma maybeSingle_single (R : Type) (x : R) :
  maybeSingle (select_rows None [x]) = {| data := Some x; error := None |}.
Proof. reflexivity. Qed.

Lemma maybeSingle_not_single (R : Type) (f : option PostgrestError) (rows : list R) :
  List.length rows <> 1%nat -> data (maybeSingle (select_rows f rows)) = None.
Proof.
  intros H. destruct f; [reflexivity|].
  destruct rows as [|y [|z rows]]; cbn in *; try reflexivity. congruence.
Qed.

(** C8, as stated, fails: for a device of factory price 2100, length 0.5
    and weight 30 under the seeded settings the exact quotient is 2400;
    the client computes 2400.0000000000005 in binary64 and returns 2401,
    the SQL function computes 2399.99... in NUMERIC and returns 2400. *)
Lemma copies_differ_on_duct_unit :
  calculatePriceInternal (toDevice (client_device duct_unit))
                         (toSettings (client_settings seed_settings))
  = JsNumber.of_Z 2401 /\
  (exists row,
      Sql.price_of_rows duct_unit seed_settings = Returns row /\
      Sql.sell_price row = PgNumeric.of_Z 2400) /\
  JsNumber.of_Z 2401 <> PgNumeric.to_json_number (PgNumeric.of_Z 2400).
Proof.
  split; [vm_compute; reflexivity|]. split.
  - eexists. split; vm_compute; reflexivity.
  - vm_compute. discriminate.
Qed.

(** C8, amended.  The two copies apply the same formula, the same
    operations in the same order ending in a ceiling, each in its own
    number system: binary64 in [calculateBreakdown], NUMERIC in
    [calculate_price_logic].  They give the same sellPrice for the six
    seeded devices under the seeded settings, and on the client the
    breakdown path and the request path use the same price: a request
    that writes a row stores the sellPrice of the breakdown, which is
    then finite, as JSON carries it (a negative zero as zero). *)
Theorem copies_share_formula :
  (forall device settings,
      Returns (calculatePriceInternal device settings)
      = spec_sellPrice (factoryPriceEUR device) (length device) (weight device)
          (discountMultiplier settings) (freightRatePerLengthEUR settings)
          (customsNumerator settings) (customsDenominator settings)
          (warrantyRate settings) (internalCommissionFactor settings)
          (companyCostFactor settings) (profitFactor settings)) /\
  (forall d s,
      (row <- Sql.price_of_rows d s ;; Returns (Sql.sell_price row))
      = spec_sellPrice (d_factory_price_eur d) (d_length d) (d_weight d)
          (s_discount_multiplier s) (s_freight_rate_per_length_eur s)
          (s_customs_numerator s) (s_customs_denominator s)
          (s_warranty_rate s) (s_internal_commission_factor s)
          (s_company_cost_factor s) (s_profit_factor s)) /\
  Forall (fun d =>
            exists z row,
              Sql.price_of_rows d seed_settings = Returns row /\
              Sql.sell_price row = PgNumeric.of_Z z /\
              calculatePriceInternal (toDevice (client_device d))
                                     (toSettings (client_settings seed_settings))
              = JsNumber.of_Z z)
         seed_devices /\
  (forall env env' db userId deviceId projectId b dto db',
      getDeviceBreakdown env db deviceId = Returns b ->
      requestPrice env' db userId deviceId projectId = (Returns dto, db') ->
      db' = db \/
      exists log, inquiry_logs db' = inquiry_logs db ++ [log] /\
                  sell_price_eur_snapshot log = through_json (sellPrice (steps b)) /\
                  is_finite (sellPrice (steps b)) = true).
Proof.
  split; [|split; [|split]].
  - intros device settings. reflexivity.
  - intros d s. unfold Sql.price_of_rows, spec_sellPrice.
    cbn [over times plus ceiling numeric_Arithmetic].
    destruct (Sql.numeric_div (s_customs_numerator s) (s_customs_denominator s))
      as [q1|]; cbn [bind]; [|reflexivity].
    match goal with |- context [Sql.numeric_div ?a (s_internal_commission_factor s)] =>
      destruct (Sql.numeric_div a (s_internal_commission_factor s)) as [q2|] end;
      cbn [bind]; [|reflexivity].
    destruct (Sql.numeric_div q2 (s_company_cost_factor s)) as [q3|];
      cbn [bind]; [|reflexivity].
    destruct (Sql.numeric_div q3 (s_profit_factor s)) as [q4|];
      cbn [bind]; reflexivity.
  - unfold seed_devices.
    repeat (apply Forall_cons;
            [eexists; eexists; split; [vm_compute; reflexivity|];
             split; vm_compute; reflexivity|]).
    apply Forall_nil.
  - intros env env' db userId deviceId projectId b dto db' Hb Hr.
    unfold getDeviceBreakdown in Hb.
    destruct (data (maybeSingle (select_rows (fault env SelectDevice)
                                             (device_by_id db deviceId))))
      as [device|] eqn:Hd; [|discriminate].
    destruct (data (maybeSingle (select_rows (fault env SelectSettings)
                                             (active_settings db))))
      as [settings|] eqn:Hs; [|discriminate].
    apply maybeSingle_data in Hd as [_ Hd]. apply maybeSingle_data in Hs as [_ Hs].
    inversion Hb; subst b; clear Hb.
    unfold requestPrice in Hr. rewrite Hd, Hs in Hr.
    destruct (fault env' SelectDevice); [cbn in Hr; inversion Hr|].
    cbn [select_rows maybeSingle data error] in Hr.
    destruct (data (maybeSingle (select_rows (fault env' SelectExistingLog) _)))
      as [existing|]; [inversion Hr; auto|].
    destruct (fault env' SelectSettings); [cbn in Hr; inversion Hr|].
    cbn [select_rows maybeSingle data error] in Hr.
    destruct (fault env' InsertInquiryLog); [inversion Hr|].
    destruct (is_finite (calculatePriceInternal (toDevice device) (toSettings settings)))
      eqn:Hfin; [|inversion Hr].
    inversion Hr; subst. right. eexists. split; [reflexivity|].
    split; [reflexivity|exact Hfin].
Qed.

Lemma copies_share_formula_witness :
  let r := requestPrice (env_of no_call log1 0) (client_view shop_db)
                        user1 outdoor_unit project1 in
  snd r = client_view shop_db \/
  exists log,
    inquiry_logs (snd r) = inquiry_logs (client_view shop_db) ++ [log] /\
    sell_price_eur_snapshot log
    = through_json
        (sellPrice (steps (calculateBreakdown worked_device worked_settings))) /\
    is_finite (sellPrice (steps (calculateBreakdown worked_device worked_settings)))
    = true.
Proof.
  destruct copies_share_formula as (_ & _ & _ & H). cbv zeta.
  apply (H (env_of no_call log1 0) (env_of no_call log1 0) (client_view shop_db)
           user1 outdoor_unit project1
           (calculateBreakdown worked_device worked_settings)
           {| requestId := log1; dto_deviceId := outdoor_unit;
              dto_projectId := project1; dto_status := pending;
              sellPriceEUR := None; timestamp := 0 |});
    vm_compute; reflexivity.
Defined.

(** ** Ordering of query results *)

Section OrderDesc.
Context {A : Type} (key : A -> Z).

Lemma insert_desc_perm (x : A) (l : list A) :
  Permutation (x :: l) (insert_desc key x l).
Proof.
  induction l as [|y l IH]; cbn.
  - apply Permutation_refl.
  - destruct (key y <? key x).
    + apply Permutation_refl.
    + apply perm_trans with (y :: x :: l); [apply perm_swap|].
      apply perm_skip, IH.
Qed.

Lemma order_desc_perm (l : list A) : Permutation l (order_desc key l).
Proof.
  induction l as [|x l IH]; cbn.
  - apply perm_nil.
  - apply perm_trans with (x :: order_desc key l).
    + apply perm_skip, IH.
    + apply insert_desc_perm.
Qed.

Lemma insert_desc_sorted (x : A) (l : list A) :
  StronglySorted (desc key) l -> StronglySorted (desc key) (insert_desc key x l).
Proof.
  induction l as [|y l IH]; cbn; intros Hs.
  - constructor; constructor.
  - inversion Hs as [|? ? Hl Hy]; subst.
    destruct (key y <? key x) eqn:E.
    + apply Z.ltb_lt in E. constructor; [exact Hs|].
      constructor; [unfold desc; lia|].
      eapply Forall_impl; [|exact Hy]. unfold desc. intros z Hz. cbn in Hz. lia.
    + apply Z.ltb_ge in E. constructor; [apply IH, Hl|].
      eapply Permutation_Forall; [apply insert_desc_perm|].
      constructor; [exact E|exact Hy].
Qed.

Lemma order_desc_sorted (l : list A) : StronglySorted (desc key) (order_desc key l).
Proof.
  induction l as [|x l IH]; cbn.
  - constructor.
  - apply insert_desc_sorted, IH.
Qed.

Lemma order_desc_In (l : list A) (x : A) : In x (order_desc key l) <-> In x l.
Proof.
  split; intros H.
  - eapply Permutation_in; [apply Permutation_sym, order_desc_perm|exact H].
  - eapply Permutation_in; [apply order_desc_perm|exact H].
Qed.

(** The first row in decreasing order has the largest key. *)
Lemma order_desc_head (l : list A) (x : A) :
  hd_error (order_desc key l) = Some x ->
  In x l /\ forall y, In y l -> key y <= key x.
Proof.
  intros H. pose proof (order_desc_sorted l) as Hs.
  destruct (order_desc key l) as [|z t] eqn:E; [discriminate|].
  inversion H; subst z. split.
  - apply order_desc_In. rewrite E. left. reflexivity.
  - intros y Hy. apply order_desc_In in Hy. rewrite E in Hy.
    inversion Hs as [|? ? _ Hall]; subst.
    destruct Hy as [->|Hy]; [lia|].
    rewrite Forall_forall in Hall. apply (Hall y Hy).
Qed.

Lemma order_desc_nonempty (l : list A) :
  l <> [] -> exists x, hd_error (order_desc key l) = Some x.
Proof.
  intros H. destruct (order_desc key l) as [|x t] eqn:E.
  - exfalso. apply H. apply Permutation_nil.
    rewrite <- E. apply Permutation_sym, order_desc_perm.
  - exists x. reflexivity.
Qed.

End OrderDesc.

(** ** The order of a scan *)

Lemma snd_combine (A B : Type) (l : list A) (l' : list B) :
  List.length l = List.length l' -> map snd (combine l l') = l'.
Proof.
  revert l'. induction l as [|x l IH]; intros [|y l'] H; cbn in *;
    try reflexivity; try discriminate.
  f_equal. apply IH. congruence.
Qed.

(** A scan returns every row once, in some order. *)
Lemma scan_perm (R : Type) (rank : nat -> nat) (rows : list R) :
  Permutation rows (scan rank rows).
Proof.
  unfold scan.
  rewrite <- (snd_combine _ _ (seq 0 (List.length rows)) rows) at 1
    by apply length_seq.
  apply Permutation_map, order_desc_perm.
Qed.

Lemma scan_In (R : Type) (rank : nat -> nat) (rows : list R) (x : R) :
  In x (scan rank rows) <-> In x rows.
Proof.
  split; intros H.
  - eapply Permutation_in; [apply Permutation_sym, scan_perm|exact H].
  - eapply Permutation_in; [apply scan_perm|exact H].
Qed.

Lemma scan_length (R : Type) (rank : nat -> nat) (rows : list R) :
  List.length (scan rank rows) = List.length rows.
Proof. symmetry. apply Permutation_length, scan_perm. Qed.

Lemma maybeSingle_scan (R : Type) (f : option PostgrestError) (rank : nat -> nat)
    (rows : list R) :
  maybeSingle (select_rows f (scan rank rows)) = maybeSingle (select_rows f rows).
Proof.
  destruct f as [e|]; [reflexivity|].
  destruct rows as [|x [|y rows]]; [reflexivity|reflexivity|].
  pose proof (scan_length R rank (x :: y :: rows)) as L.
  destruct (scan rank (x :: y :: rows)) as [|x' [|y' rows']]; cbn in L;
    try discriminate.
  reflexivity.
Qed.

Lemma scan_nonempty (R : Type) (rank : nat -> nat) (rows : list R) :
  rows <> [] -> scan rank rows <> [].
Proof.
  intros H E. apply H. apply Permutation_nil. rewrite <- E. apply Permutation_sym, scan_perm.
Qed.

(** The rank decides the order: the two rows of a table come back in
    either order, and so do two rows with the same key under
    [ORDER BY]. *)
Lemma scan_decides_the_order (R : Type) (a b : R) (key : R -> Z) :
  scan (fun n => n) [a; b] = [a; b] /\
  scan (fun n => (1 - n)%nat) [a; b] = [b; a] /\
  (key a = key b ->
   order_desc key (scan (fun n => n) [a; b]) = [b; a] /\
   order_desc key (scan (fun n => (1 - n)%nat) [a; b]) = [a; b]).
Proof.
  split; [reflexivity|]. split; [reflexivity|].
  intros E. cbn. rewrite E, Z.ltb_irrefl. split; reflexivity.
Qed.

(** ** Retrieval of the active settings *)

(** C5, as stated, fails on the server side: with two active settings
    rows [calculate_price_logic] does not fail; it silently uses the
    row created last (profit factor 0.70) and returns 14909 where the
    older row (0.65) gives 16056. *)
Lemma latest_of_two_active_settings_used :
  List.length (active_settings two_active_db) = 2%nat /\
  (forall env, exists row,
      Sql.calculate_price_logic env two_active_db outdoor_unit = Returns row /\
      Sql.sell_price row = PgNumeric.of_Z 14909) /\
  (forall env msg,
      Sql.calculate_price_logic env two_active_db outdoor_unit <> Throws msg) /\
  (forall env, exists row,
      Sql.calculate_price_logic env shop_db outdoor_unit = Returns row /\
      Sql.sell_price row = PgNumeric.of_Z 16056).
Proof.
  assert (L : forall env,
             Sql.latest_active_settings env two_active_db = Some later_settings).
  { intros env. unfold Sql.latest_active_settings.
    set (rows := scan (scan_rank env SelectSettings) (active_settings two_active_db)).
    destruct (order_desc_nonempty s_created_at rows) as [s Hs];
      [apply scan_nonempty; discriminate|].
    rewrite Hs. destruct (order_desc_head s_created_at _ _ Hs) as [Hin Hmax].
    assert (Hl : In later_settings rows)
      by (apply scan_In; right; left; reflexivity).
    apply Hmax in Hl. apply scan_In in Hin.
    destruct Hin as [<-|[<-|[]]]; [|reflexivity].
    exfalso. vm_compute in Hl. apply Hl. reflexivity. }
  split; [reflexivity|]. split; [|split].
  - intros env. unfold Sql.calculate_price_logic. rewrite L.
    eexists; split; vm_compute; reflexivity.
  - intros env msg. unfold Sql.calculate_price_logic. rewrite L.
    vm_compute. discriminate.
  - intros env. eexists; split; vm_compute; reflexivity.
Qed.

(** C5, amended.  On the client, retrieving the active settings fails
    whenever the number of active rows is not exactly one, be it zero or
    several: [getDeviceBreakdown] throws, and [requestPrice] throws or
    returns an already pending request, and never writes a row.  On the
    server, [calculate_price_logic] fails when no row is active, and with
    one or more active rows it computes with the one created last. *)
Theorem active_settings_retrieval :
  (forall env db deviceId,
      List.length (active_settings db) <> 1%nat ->
      getDeviceBreakdown env db deviceId = Throws "Device or settings not found") /\
  (forall env db userId deviceId projectId,
      List.length (active_settings db) <> 1%nat ->
      let r := requestPrice env db userId deviceId projectId in
      snd r = db /\
      (fst r = Throws "Device not found" \/
       fst r = Throws "Settings not found" \/
       exists dto log,
         fst r = Returns dto /\ In log (inquiry_logs db) /\
         is_pending_for userId deviceId projectId log = true /\
         requestId dto = id log)) /\
  (forall env db deviceId,
      active_settings db = [] ->
      Sql.calculate_price_logic env db deviceId = Throws "Device not found" \/
      Sql.calculate_price_logic env db deviceId = Throws "No active settings found") /\
  (forall env db deviceId d,
      hd_error (device_by_id db deviceId) = Some d ->
      active_settings db <> [] ->
      exists s,
        In s (active_settings db) /\
        (forall s', In s' (active_settings db) -> s_created_at s' <= s_created_at s) /\
        Sql.calculate_price_logic env db deviceId = Sql.price_of_rows d s).
Proof.
  split; [|split; [|split]].
  - intros env db deviceId H. unfold getDeviceBreakdown.
    rewrite (maybeSingle_not_single _ _ _ H).
    destruct (data (maybeSingle _)); reflexivity.
  - intros env db userId deviceId projectId H. cbv zeta. unfold requestPrice.
    destruct (error (maybeSingle (select_rows (fault env SelectDevice) _)));
      [cbn; auto|].
    destruct (data (maybeSingle (select_rows (fault env SelectDevice) _)));
      [|cbn; auto].
    destruct (data (maybeSingle (select_rows (fault env SelectExistingLog) _)))
      as [existing|] eqn:He.
    + cbn [fst snd]. split; [reflexivity|]. right. right.
      apply maybeSingle_data in He as [_ He].
      assert (Hin : In existing (filter (is_pending_for userId deviceId projectId)
                                        (inquiry_logs db)))
        by (rewrite He; left; reflexivity).
      apply filter_In in Hin as [Hin Hp].
      eexists. exists existing. repeat split; [exact Hin|exact Hp].
    + rewrite (maybeSingle_not_single _ _ _ H). cbn. auto.
  - intros env db deviceId H.
    unfold Sql.calculate_price_logic, Sql.latest_active_settings.
    rewrite H. cbn. destruct (hd_error (device_by_id db deviceId)); auto.
  - intros env db deviceId d Hd Hne.
    unfold Sql.calculate_price_logic, Sql.latest_active_settings. rewrite Hd.
    destruct (order_desc_nonempty s_created_at
                (scan (scan_rank env SelectSettings) (active_settings db))
                (scan_nonempty _ _ _ Hne)) as [s Hs].
    rewrite Hs. exists s.
    destruct (order_desc_head s_created_at _ _ Hs) as [Hin Hmax].
    split; [apply scan_In in Hin; exact Hin|]. split; [|reflexivity].
    intros s' Hs'. apply Hmax. apply scan_In. exact Hs'.
Qed.

Lemma active_settings_retrieval_witness :
  getDeviceBreakdown (env_of no_call log1 0) (client_view two_active_db) outdoor_unit
  = Throws "Device or settings not found" /\
  (exists s,
      In s (active_settings two_active_db) /\
      (forall s', In s' (active_settings two_active_db) ->
                  s_created_at s' <= s_created_at s) /\
      Sql.calculate_price_logic (env_of no_call log1 0) two_active_db outdoor_unit
      = Sql.price_of_rows (device_row outdoor_unit cat_vrf "VRF-Outdoor-20HP"
                                      (dec 15000 0) (dec 25 1) (dec 400 0)) s).
Proof.
  destruct active_settings_retrieval as (H1 & _ & _ & H4). split.
  - apply H1. vm_compute. discriminate.
  - apply (H4 (env_of no_call log1 0)); [reflexivity|discriminate].
Defined.

(** ** Approval transitions *)

Lemma set_inquiry_logs_same (num : Type) (db : Db num) :
  set_inquiry_logs db (inquiry_logs db) = db.
Proof. destruct db. reflexivity. Qed.

(** C6, as stated, fails: a pending log is approved, and a later call
    of an administrator with [rejected] on the now terminal log returns
    normally and overwrites both the status and the response time. *)
Lemma terminal_log_overwritten :
  let db0 := ledger [inquiry log1 pending 0] in
  let step1 := setRequestStatus (env_of no_call log2 1000000) db0 log1 Approved in
  let step2 := setRequestStatus (env_of no_call log2 2000000) (snd step1) log1 Rejected in
  fst step1 = Returns tt /\
  map status (inquiry_logs (snd step1)) = [approved] /\
  map admin_response_time (inquiry_logs (snd step1)) = [Some 1000000] /\
  fst step2 = Returns tt /\
  (forall msg, fst step2 <> Throws msg) /\
  map status (inquiry_logs (snd step2)) = [rejected] /\
  map admin_response_time (inquiry_logs (snd step2)) = [Some 2000000].
Proof.
  cbv zeta. repeat split; try (vm_compute; reflexivity).
  intros msg. vm_compute. discriminate.
Qed.

(** C6, amended.  [setRequestStatus] checks no state: whatever the
    current status of the log, a call whose store update succeeds returns
    normally; when the caller is an administrator it leaves the log with
    the requested status and the call time as response time, and for
    any other caller the update policy of [inquiry_logs] lets it match
    no row, so that nothing changes.  A call fails only when the store
    update fails, and then changes nothing.  The requested status being
    approved or rejected, a log it touches is never pending afterwards. *)
Theorem setRequestStatus_unconditional (env : Env) (db : Db number)
    (logId : uuid) (st : Decision) :
  let r := setRequestStatus env db logId st in
  (fault env UpdateInquiryLog = None ->
   fst r = Returns tt /\
   (auth_is_admin env = true ->
    (forall log, In log (inquiry_logs db) -> id log = logId ->
                 In (update_log (Decision_status st) (Date_now env) log)
                    (inquiry_logs (snd r))) /\
    (forall log', In log' (inquiry_logs (snd r)) -> id log' = logId ->
                  status log' = Decision_status st /\
                  admin_response_time log' = Some (Date_now env) /\
                  status log' <> pending)) /\
   (auth_is_admin env = false -> snd r = db)) /\
  (forall e, fault env UpdateInquiryLog = Some e ->
             r = (Throws (String.append "Failed to update request status: "
                                        (message e)), db)).
Proof.
  cbv zeta. unfold setRequestStatus. split.
  - intros F. rewrite F. cbn [fst snd].
    split; [reflexivity|]. split.
    + intros Adm. rewrite Adm. cbn [set_inquiry_logs inquiry_logs]. split.
      * intros log Hin Hid. apply in_map_iff. exists log. split; [|exact Hin].
        rewrite <- Hid, String.eqb_refl. reflexivity.
      * intros log' Hin Hid. apply in_map_iff in Hin as (log & E & Hin).
        destruct (String.eqb (id log) logId) eqn:Eq.
        -- subst log'. cbn. repeat split. destruct st; discriminate.
        -- subst log'. apply String.eqb_neq in Eq. contradiction.
    + intros Adm. rewrite Adm.
      rewrite (map_ext _ (fun log => log)), map_id.
      * apply set_inquiry_logs_same.
      * intros log. rewrite andb_false_r. reflexivity.
  - intros e F. rewrite F. reflexivity.
Qed.

Lemma setRequestStatus_unconditional_witness :
  fst (setRequestStatus (env_of no_call log2 2000000)
                        (ledger [inquiry log1 approved 0]) log1 Rejected)
  = Returns tt /\
  In (update_log rejected 2000000 (inquiry log1 approved 0))
     (inquiry_logs (snd (setRequestStatus (env_of no_call log2 2000000)
                           (ledger [inquiry log1 approved 0]) log1 Rejected))) /\
  setRequestStatus (as_employee (env_of no_call log2 2000000))
                   (ledger [inquiry log1 approved 0]) log1 Rejected
  = (Returns tt, ledger [inquiry log1 approved 0]).
Proof.
  destruct (setRequestStatus_unconditional
              (env_of no_call log2 2000000) (ledger [inquiry log1 approved 0])
              log1 Rejected) as [H _].
  destruct (H eq_refl) as (H1 & Hadmin & _). split; [exact H1|].
  destruct (Hadmin eq_refl) as (H2 & _).
  split; [apply (H2 (inquiry log1 approved 0)); [left; reflexivity|reflexivity]|].
  destruct (setRequestStatus_unconditional
              (as_employee (env_of no_call log2 2000000))
              (ledger [inquiry log1 approved 0]) log1 Rejected) as [K _].
  destruct (K eq_refl) as (K1 & _ & Kother).
  apply injective_projections; [exact K1|exact (Kother eq_refl)].
Defined.

(** C9.  A call of [setRequestStatus] leaves every table but
    [inquiry_logs] as it is, keeps the rows of [inquiry_logs] in number
    and place, changes in a row nothing but [status] and
    [admin_response_time] (the ids, the snapshots and the creation time
    stay), and leaves a row with another id wholly unchanged. *)
Theorem setRequestStatus_frame (env : Env) (db : Db number)
    (logId : uuid) (st : Decision) :
  let db' := snd (setRequestStatus env db logId st) in
  categories db' = categories db /\
  devices db' = devices db /\
  global_settings db' = global_settings db /\
  projects db' = projects db /\
  List.length (inquiry_logs db') = List.length (inquiry_logs db) /\
  (forall i log,
      nth_error (inquiry_logs db) i = Some log ->
      exists log',
        nth_error (inquiry_logs db') i = Some log' /\
        id log' = id log /\
        user_id log' = user_id log /\
        device_id log' = device_id log /\
        project_id log' = project_id log /\
        project_name_snapshot log' = project_name_snapshot log /\
        category_name_snapshot log' = category_name_snapshot log /\
        model_name_snapshot log' = model_name_snapshot log /\
        sell_price_eur_snapshot log' = sell_price_eur_snapshot log /\
        created_at log' = created_at log /\
        (id log <> logId -> log' = log)).
Proof.
  cbv zeta. unfold setRequestStatus.
  destruct (fault env UpdateInquiryLog) as [e|]; cbn [snd].
  - repeat split; try reflexivity.
    intros i log H. exists log. repeat split; try reflexivity. exact H.
  - cbn [set_inquiry_logs categories devices global_settings projects inquiry_logs].
    repeat split; try reflexivity.
    + apply length_map.
    + intros i log H.
      eexists. split; [apply map_nth_error, H|].
      destruct (String.eqb (id log) logId) eqn:E; destruct (auth_is_admin env);
        cbn [andb].
      * cbn. repeat split. intros Hne. apply String.eqb_eq in E. contradiction.
      * repeat split.
      * repeat split.
      * repeat split.
Qed.

Lemma setRequestStatus_frame_witness :
  exists log',
    nth_error (inquiry_logs
                 (snd (setRequestStatus (env_of no_call log3 5000000)
                         (ledger [inquiry log1 pending 0; inquiry log2 pending 1])
                         log1 Approved))) 1
    = Some log' /\
    log' = inquiry log2 pending 1.
Proof.
  destruct (setRequestStatus_frame
              (env_of no_call log3 5000000)
              (ledger [inquiry log1 pending 0; inquiry log2 pending 1])
              log1 Approved) as (_ & _ & _ & _ & _ & H).
  destruct (H 1%nat (inquiry log2 pending 1) eq_refl)
    as (log' & Hn & _ & _ & _ & _ & _ & _ & _ & _ & _ & Hsame).
  exists log'. split; [exact Hn|]. apply Hsame. vm_compute. discriminate.
Defined.

(** ** The requests of a user *)

Lemma getTime_monotone (a b : timestamptz) : a <= b -> getTime a <= getTime b.
Proof. intros H. unfold getTime. apply Z.div_le_mono; lia. Qed.

Lemma sorted_requests (rows : list (InquiryLogRow number)) :
  StronglySorted (desc created_at) rows ->
  StronglySorted (desc timestamp) (map request_of_log rows).
Proof.
  induction 1 as [|log rows Hs IH Hall]; cbn; constructor.
  - exact IH.
  - apply Forall_map. eapply Forall_impl; [|exact Hall].
    intros log' H. unfold desc in *. cbn. apply getTime_monotone, H.
Qed.

Lemma getUserRequests_rows (env : Env) (db : Db number) (userId : uuid) :
  fault env SelectUserRequests = None ->
  getUserRequests env db userId
  = Returns
      (map request_of_log
           (order_desc created_at
              (scan (scan_rank env SelectUserRequests)
                 (filter (fun log => String.eqb (user_id log) userId)
                         (inquiry_logs db))))).
Proof. intros F. unfold getUserRequests. rewrite F. reflexivity. Qed.

Lemma getUserRequests_failed (env : Env) (db : Db number) (userId : uuid)
    (e : PostgrestError) :
  fault env SelectUserRequests = Some e ->
  getUserRequests env db userId = Returns [].
Proof. intros F. unfold getUserRequests. rewrite F. reflexivity. Qed.

(** C7.  [getUserRequests] returns the logs of the user, newest first
    (the creation times never increase along the list); an entry whose
    status is not approved carries no price, and an approved entry
    carries the snapshot of its log. *)
Theorem getUserRequests_newest_first_redacted (env : Env) (db : Db number)
    (userId : uuid) :
  exists r,
    getUserRequests env db userId = Returns r /\
    StronglySorted (desc timestamp) r /\
    (forall dto, In dto r -> dto_status dto <> approved -> sellPriceEUR dto = None) /\
    (forall dto, In dto r ->
       exists log,
         In log (inquiry_logs db) /\ user_id log = userId /\
         requestId dto = id log /\ dto_deviceId dto = device_id log /\
         dto_projectId dto = project_id log /\ dto_status dto = status log /\
         timestamp dto = getTime (created_at log) /\
         (dto_status dto = approved ->
          sellPriceEUR dto = Some (sell_price_eur_snapshot log))) /\
    (fault env SelectUserRequests = None ->
     Permutation r
       (map request_of_log
            (filter (fun log => String.eqb (user_id log) userId)
                    (inquiry_logs db)))).
Proof.
  destruct (fault env SelectUserRequests) as [e|] eqn:F.
  - exists []. split; [apply (getUserRequests_failed _ _ _ _ F)|].
    repeat split; try constructor; try contradiction. discriminate.
  - eexists. split; [apply (getUserRequests_rows _ _ _ F)|].
    split; [apply sorted_requests, order_desc_sorted|].
    split; [|split].
    + intros dto Hin Hst. apply in_map_iff in Hin as (log & <- & _).
      cbn in *. destruct (status log); cbn; congruence.
    + intros dto Hin. apply in_map_iff in Hin as (log & <- & Hin).
      apply order_desc_In, scan_In, filter_In in Hin as [Hin Hu].
      apply String.eqb_eq in Hu.
      exists log. cbn. repeat split; try assumption.
      intros ->. reflexivity.
    + intros _. apply Permutation_map, Permutation_sym.
      eapply Permutation_trans; [apply scan_perm|apply order_desc_perm].
Qed.

Lemma getUserRequests_newest_first_redacted_witness :
  exists r,
    getUserRequests (env_of no_call log1 0)
                    (ledger [inquiry log1 approved 1000; inquiry log2 pending 5000;
                             inquiry log3 rejected 3000]) user1
    = Returns r /\
    r = [ request_of_log (inquiry log2 pending 5000);
          request_of_log (inquiry log3 rejected 3000);
          request_of_log (inquiry log1 approved 1000) ] /\
    sellPriceEUR (request_of_log (inquiry log2 pending 5000)) = None /\
    Permutation r
      (map request_of_log
           [inquiry log1 approved 1000; inquiry log2 pending 5000;
            inquiry log3 rejected 3000]).
Proof.
  destruct (getUserRequests_newest_first_redacted
              (env_of no_call log1 0)
              (ledger [inquiry log1 approved 1000; inquiry log2 pending 5000;
                       inquiry log3 rejected 3000]) user1)
    as (r & Hr & _ & Hred & _ & Hperm).
  exists r. split; [exact Hr|].
  assert (E : r = [ request_of_log (inquiry log2 pending 5000);
                    request_of_log (inquiry log3 rejected 3000);
                    request_of_log (inquiry log1 approved 1000) ]).
  { vm_compute in Hr. inversion Hr. vm_compute. reflexivity. }
  split; [exact E|]. split.
  - apply Hred; [|discriminate]. rewrite E. left. reflexivity.
  - exact (Hperm eq_refl).
Defined.

(** C10.  When the store read fails, [getUserRequests] throws nothing and
    returns the empty list: the value a working store returns for a
    user without requests. *)
Theorem getUserRequests_swallows_read_failure (env : Env) (db : Db number)
    (userId : uuid) (e : PostgrestError) :
  fault env SelectUserRequests = Some e ->
  getUserRequests env db userId = Returns [] /\
  forall env',
    fault env' SelectUserRequests = None ->
    getUserRequests env' (set_inquiry_logs db []) userId
    = getUserRequests env db userId.
Proof.
  intros F. rewrite (getUserRequests_failed _ _ _ _ F). split; [reflexivity|].
  intros env' F'. rewrite (getUserRequests_rows _ _ _ F'). reflexivity.
Qed.

Lemma getUserRequests_swallows_read_failure_witness :
  getUserRequests (env_of only_user_requests log1 0)
                  (ledger [inquiry log1 approved 1000; inquiry log2 pending 5000])
                  user1 = Returns [] /\
  getUserRequests (env_of no_call log1 0)
                  (ledger [inquiry log1 approved 1000; inquiry log2 pending 5000])
                  user2 = Returns [].
Proof.
  destruct (getUserRequests_swallows_read_failure
              (env_of only_user_requests log1 0)
              (ledger [inquiry log1 approved 1000; inquiry log2 pending 5000])
              user1 network_error eq_refl) as [H _].
  split; [exact H|]. vm_compute. reflexivity.
Defined.

(** ** Price requests *)

(** When the store answers and holds exactly one pending log for the
    triple, [requestPrice] returns that log and writes nothing. *)
Lemma requestPrice_returns_existing (env : Env) (db : Db number)
    (userId deviceId projectId : uuid)
    (device : DeviceRow number) (log : InquiryLogRow number) :
  fault env SelectDevice = None ->
  fault env SelectExistingLog = None ->
  device_by_id db deviceId = [device] ->
  filter (is_pending_for userId deviceId projectId) (inquiry_logs db) = [log] ->
  requestPrice env db userId deviceId projectId
  = (Returns {| requestId := id log;
                dto_deviceId := device_id log;
                dto_projectId := project_id log;
                dto_status := status log;
                sellPriceEUR := None;
                timestamp := getTime (created_at log) |}, db).
Proof.
  intros Fd Fe Hd Hl. unfold requestPrice. rewrite Fd, Fe, Hd, Hl. reflexivity.
Qed.

(** When the store answers every call, holds no pending log for the
    triple and the price of the device is a finite number, a first
    request creates a pending log and a second request returns it: the
    same id both times, and no second row. *)
Lemma requestPrice_twice_same_id (env1 env2 : Env) (db : Db number)
    (userId deviceId projectId : uuid)
    (device : DeviceRow number) (settings : SettingsRow number) :
  (forall c, fault env1 c = None) ->
  (forall c, fault env2 c = None) ->
  device_by_id db deviceId = [device] ->
  active_settings db = [settings] ->
  filter (is_pending_for userId deviceId projectId) (inquiry_logs db) = [] ->
  is_finite (calculatePriceInternal (toDevice device) (toSettings settings)) = true ->
  let first := requestPrice env1 db userId deviceId projectId in
  let second := requestPrice env2 (snd first) userId deviceId projectId in
  exists dto1 dto2,
    fst first = Returns dto1 /\ fst second = Returns dto2 /\
    requestId dto1 = gen_random_uuid env1 /\
    requestId dto2 = requestId dto1 /\
    snd second = snd first /\
    List.length (inquiry_logs (snd second)) = S (List.length (inquiry_logs db)).
Proof.
  intros F1 F2 Hd Hs Hl Hfin. cbv zeta.
  assert (E1 : exists log,
             requestPrice env1 db userId deviceId projectId
             = (Returns {| requestId := gen_random_uuid env1;
                           dto_deviceId := deviceId;
                           dto_projectId := projectId;
                           dto_status := pending;
                           sellPriceEUR := None;
                           timestamp := getTime (now env1) |},
                set_inquiry_logs db (inquiry_logs db ++ [log])) /\
             id log = gen_random_uuid env1 /\
             is_pending_for userId deviceId projectId log = true).
  { unfold requestPrice. rewrite !F1, Hd, Hl, Hs.
    cbn [select_rows maybeSingle data error]. rewrite Hfin.
    eexists. split; [reflexivity|]. split; [reflexivity|].
    unfold is_pending_for. cbn. rewrite !String.eqb_refl. reflexivity. }
  destruct E1 as (log & E1 & Hid & Hp). rewrite E1. cbn [fst snd].
  rewrite (requestPrice_returns_existing env2 _ userId deviceId projectId device log
             (F2 _) (F2 _)).
  - cbn [fst snd]. eexists. eexists. repeat split.
    + cbn. exact Hid.
    + cbn. rewrite length_app. cbn. lia.
  - exact Hd.
  - cbn. rewrite filter_app, Hl. cbn. rewrite Hp. reflexivity.
Qed.

(** C3: the code departs from the claim.  On the seeded store a first
    request creates the pending log [log1].  A second request for the
    same triple, during which the lookup of the pending log fails while
    the other store calls succeed, does not return [log1]: the error of
    that lookup is ignored, and a second pending row [log2] is written.
    From then on the triple has two pending rows, and even a request
    that no failure disturbs writes a third.  The SQL function
    [request_price] looks for no pending log at all: two calls write two
    rows. *)
Theorem requestPrice_writes_duplicate :
  let db0 := ledger [] in
  let first := requestPrice (env_of no_call log1 1000000) db0
                            user1 outdoor_unit project1 in
  let second := requestPrice (env_of only_existing_log_lookup log2 2000000)
                             (snd first) user1 outdoor_unit project1 in
  let third := requestPrice (env_of no_call log3 3000000)
                            (snd second) user1 outdoor_unit project1 in
  let sql1 := Sql.request_price (env_of no_call log1 1000000) user1 shop_db
                                outdoor_unit project1 in
  let sql2 := Sql.request_price (env_of no_call log2 2000000) user1 (snd sql1)
                                outdoor_unit project1 in
  (exists dto, fst first = Returns dto /\ requestId dto = log1) /\
  map status (inquiry_logs (snd first)) = [pending] /\
  (exists dto, fst second = Returns dto /\ requestId dto = log2) /\
  log2 <> log1 /\
  map id (filter (is_pending_for user1 outdoor_unit project1)
                 (inquiry_logs (snd second))) = [log1; log2] /\
  (exists dto, fst third = Returns dto /\ requestId dto = log3) /\
  map id (filter (is_pending_for user1 outdoor_unit project1)
                 (inquiry_logs (snd third))) = [log1; log2; log3] /\
  map id (filter (is_pending_for user1 outdoor_unit project1)
                 (inquiry_logs (snd sql2))) = [log1; log2].
Proof.
  cbv zeta.
  repeat split; try (eexists; split); try (vm_compute; reflexivity).
  vm_compute. discriminate.
Qed.

(** ** Further properties of the price requests *)

Lemma app_one_neq (A : Type) (l : list A) (x : A) : l <> l ++ [x].
Proof.
  intros H. apply (f_equal (@List.length A)) in H.
  rewrite length_app in H. cbn in H. lia.
Qed.

Lemma through_json_finite (x : number) : is_finite (through_json x) = is_finite x.
Proof. destruct x; reflexivity. Qed.

Lemma requestPrice_cases (env : Env) (db : Db number)
    (userId deviceId projectId : uuid) :
  requestPrice_run env db userId deviceId projectId
    (requestPrice env db userId deviceId projectId).
Proof.
  unfold requestPrice.
  destruct (maybeSingle (select_rows (fault env SelectDevice)
                                     (device_by_id db deviceId)))
    as [[device|] [e|]] eqn:Hd; cbn [data error]; try constructor.
  assert (Hdev : device_by_id db deviceId = [device]).
  { apply (maybeSingle_data _ (fault env SelectDevice)). rewrite Hd. reflexivity. }
  destruct (data (maybeSingle (select_rows (fault env SelectExistingLog) _)))
    as [existing|] eqn:He.
  - apply maybeSingle_data in He as [_ He].
    apply (run_existing _ _ _ _ _ device existing Hdev He).
  - destruct (data (maybeSingle (select_rows (fault env SelectSettings) _)))
      as [settings|] eqn:Hs; [|constructor].
    apply maybeSingle_data in Hs as [_ Hs].
    destruct (fault env InsertInquiryLog); [constructor|].
    destruct (is_finite (calculatePriceInternal (toDevice device) (toSettings settings)))
      eqn:Hfin; [|constructor].
    apply (run_created _ _ _ _ _ device settings _ Hdev Hs); [| |exact Hfin].
    + destruct (data (maybeSingle (select_rows (fault env SelectCategory) _)))
        as [c|]; [|discriminate].
      destruct (String.eqb (c_name c) "") eqn:E; [discriminate|].
      apply String.eqb_neq in E. exact E.
    + destruct (data (maybeSingle (select_rows (fault env SelectCategory) _)))
        as [c|] eqn:Hc; [|left; reflexivity].
      destruct (String.eqb (c_name c) ""); [left; reflexivity|].
      right. exists c. apply maybeSingle_data in Hc as [_ Hc].
      assert (Hin : In c (filter (fun c0 => String.eqb (c_id c0) (d_category_id device))
                                 (categories db)))
        by (rewrite Hc; left; reflexivity).
      apply filter_In in Hin as [Hin Hid]. apply String.eqb_eq in Hid. auto.
Qed.

(** X1.  A call of [requestPrice] touches no table but [inquiry_logs];
    there it changes and removes nothing: it either leaves the rows as
    they are or appends one pending row for the requested triple, with
    the generated id and the server time.  A call that throws leaves the
    store as it was. *)
Theorem requestPrice_store_effect (env : Env) (db : Db number)
    (userId deviceId projectId : uuid) :
  let r := requestPrice env db userId deviceId projectId in
  categories (snd r) = categories db /\
  devices (snd r) = devices db /\
  global_settings (snd r) = global_settings db /\
  projects (snd r) = projects db /\
  (inquiry_logs (snd r) = inquiry_logs db \/
   exists log,
     inquiry_logs (snd r) = inquiry_logs db ++ [log] /\
     id log = gen_random_uuid env /\ user_id log = userId /\
     device_id log = deviceId /\ project_id log = projectId /\
     status log = pending /\ admin_response_time log = None /\
     created_at log = now env) /\
  (forall msg, fst r = Throws msg -> snd r = db).
Proof.
  cbv zeta. destruct (requestPrice_cases env db userId deviceId projectId);
    cbn [fst snd set_inquiry_logs categories devices global_settings projects
         inquiry_logs];
    repeat (split; [reflexivity|]).
  - split; [left; reflexivity|]. reflexivity.
  - split; [left; reflexivity|]. reflexivity.
  - split; [|discriminate]. right. eexists. split; [reflexivity|].
    cbn. repeat split.
Qed.

Lemma requestPrice_store_effect_witness :
  snd (requestPrice (env_of (fun _ => true) log1 0) (ledger [inquiry log1 approved 7])
                    user1 outdoor_unit project1)
  = ledger [inquiry log1 approved 7].
Proof.
  destruct (requestPrice_store_effect
              (env_of (fun _ => true) log1 0) (ledger [inquiry log1 approved 7])
              user1 outdoor_unit project1) as (_ & _ & _ & _ & _ & H).
  apply (H "Device not found"). vm_compute. reflexivity.
Defined.

(** X2.  Whatever [requestPrice] returns carries no price: the request
    it describes is pending, for the device and the project asked for,
    and its [sellPriceEUR] is null. *)
Theorem requestPrice_discloses_no_price (env : Env) (db : Db number)
    (userId deviceId projectId : uuid) (dto : RequestStatusDTO) :
  fst (requestPrice env db userId deviceId projectId) = Returns dto ->
  sellPriceEUR dto = None /\ dto_status dto = pending /\
  dto_deviceId dto = deviceId /\ dto_projectId dto = projectId.
Proof.
  intros H. destruct (requestPrice_cases env db userId deviceId projectId)
    as [msg|device log Hd Hl|device settings category Hd Hs Hn Hc];
    cbn [fst] in H; inversion H; subst dto; cbn.
  - assert (Hin : In log (filter (is_pending_for userId deviceId projectId)
                                 (inquiry_logs db)))
      by (rewrite Hl; left; reflexivity).
    apply filter_In in Hin as [_ Hp]. unfold is_pending_for in Hp.
    apply andb_prop in Hp as [Hp Hst]. apply andb_prop in Hp as [Hp Hpr].
    apply andb_prop in Hp as [_ Hdv].
    apply String.eqb_eq in Hdv, Hpr.
    repeat split; try assumption. destruct (status log); [reflexivity|discriminate..].
  - repeat split.
Qed.

Lemma requestPrice_discloses_no_price_witness :
  sellPriceEUR {| requestId := log1; dto_deviceId := outdoor_unit;
                  dto_projectId := project1; dto_status := pending;
                  sellPriceEUR := None; timestamp := 0 |} = None.
Proof.
  apply (requestPrice_discloses_no_price
           (env_of no_call log2 9000) (ledger [inquiry log1 pending 0])
           user1 outdoor_unit project1).
  vm_compute. reflexivity.
Defined.

(** X3.  A row that [requestPrice] appends is a snapshot of the store at
    that moment: the price that [calculatePriceInternal] gives for the
    one device row with that id and the one active settings row is a
    finite number, and the row holds it as JSON carries it (a negative
    zero as zero, any other number itself); its model name is the
    device's, and its category name is never empty: the name of the
    device's category, or "Unknown".  So no row is ever written with a
    price that is NaN or infinite. *)
Theorem requestPrice_snapshot (env : Env) (db : Db number)
    (userId deviceId projectId : uuid) (log : InquiryLogRow number) :
  inquiry_logs (snd (requestPrice env db userId deviceId projectId))
  = inquiry_logs db ++ [log] ->
  exists device settings category,
    device_by_id db deviceId = [device] /\
    active_settings db = [settings] /\
    is_finite (calculatePriceInternal (toDevice device) (toSettings settings)) = true /\
    sell_price_eur_snapshot log
    = through_json (calculatePriceInternal (toDevice device) (toSettings settings)) /\
    is_finite (sell_price_eur_snapshot log) = true /\
    model_name_snapshot log = Some (d_model_name device) /\
    category_name_snapshot log = Some category /\
    category <> "" /\
    (category = "Unknown" \/
     exists c, In c (categories db) /\ c_id c = d_category_id device /\
               c_name c = category).
Proof.
  intros H. destruct (requestPrice_cases env db userId deviceId projectId)
    as [msg|device existing Hd Hl|device settings category Hd Hs Hn Hc Hfin];
    cbn [snd set_inquiry_logs inquiry_logs] in H.
  - exfalso. apply (app_one_neq _ _ _ H).
  - exfalso. apply (app_one_neq _ _ _ H).
  - apply app_inv_head in H. inversion H; subst log; clear H.
    exists device, settings, category.
    cbn [sell_price_eur_snapshot model_name_snapshot category_name_snapshot].
    split; [exact Hd|]. split; [exact Hs|]. split; [exact Hfin|].
    split; [reflexivity|]. split; [rewrite through_json_finite; exact Hfin|].
    repeat split; assumption.
Qed.

Lemma requestPrice_snapshot_witness :
  exists device settings category,
    device_by_id (client_view shop_db) outdoor_unit = [device] /\
    active_settings (client_view shop_db) = [settings] /\
    is_finite (calculatePriceInternal (toDevice device) (toSettings settings)) = true /\
    sell_price_eur_snapshot (inquiry log1 pending 0)
    = through_json (calculatePriceInternal (toDevice device) (toSettings settings)) /\
    is_finite (sell_price_eur_snapshot (inquiry log1 pending 0)) = true /\
    model_name_snapshot (inquiry log1 pending 0) = Some (d_model_name device) /\
    category_name_snapshot (inquiry log1 pending 0) = Some category /\
    category <> "" /\
    (category = "Unknown" \/
     exists c, In c (categories (client_view shop_db)) /\
               c_id c = d_category_id device /\ c_name c = category).
Proof.
  apply (requestPrice_snapshot (env_of no_call log1 0) (client_view shop_db)
                               user1 outdoor_unit project1).
  vm_compute. reflexivity.
Defined.

(** With a profit factor of zero the price is [Infinity]: the insert is
    rejected, [requestPrice] throws and no row is written. *)
Lemma requestPrice_rejects_infinite_price :
  requestPrice (env_of no_call log1 0) (client_view zero_profit_db)
               user1 outdoor_unit project1
  = (Throws "Failed to create inquiry log", client_view zero_profit_db).
Proof. vm_compute. reflexivity. Qed.

(** A request that [requestPrice] returns is in the store afterwards,
    as a pending log of the user. *)
Lemma requestPrice_returned_log (env : Env) (db : Db number)
    (userId deviceId projectId : uuid) (dto : RequestStatusDTO) :
  fst (requestPrice env db userId deviceId projectId) = Returns dto ->
  exists log,
    In log (inquiry_logs (snd (requestPrice env db userId deviceId projectId))) /\
    id log = requestId dto /\ user_id log = userId /\ status log = pending.
Proof.
  intros H. destruct (requestPrice_cases env db userId deviceId projectId)
    as [msg|device log Hd Hl|device settings category Hd Hs Hn Hc];
    cbn [fst snd] in *; inversion H; subst dto; cbn [requestId].
  - assert (Hin : In log (filter (is_pending_for userId deviceId projectId)
                                 (inquiry_logs db)))
      by (rewrite Hl; left; reflexivity).
    apply filter_In in Hin as [Hin Hp]. unfold is_pending_for in Hp.
    apply andb_prop in Hp as [Hp Hst]. apply andb_prop in Hp as [Hp _].
    apply andb_prop in Hp as [Hu _]. apply String.eqb_eq in Hu.
    exists log. repeat split; try assumption.
    destruct (status log); [reflexivity|discriminate..].
  - eexists. split; [cbn; apply in_or_app; right; left; reflexivity|].
    cbn. repeat split.
Qed.

(** ** Requests, decisions and the list of a user *)

Lemma setRequestStatus_logs (env : Env) (db : Db number) (logId : uuid)
    (st : Decision) :
  fault env UpdateInquiryLog = None ->
  auth_is_admin env = true ->
  inquiry_logs (snd (setRequestStatus env db logId st))
  = map (fun log => if String.eqb (id log) logId
                    then update_log (Decision_status st) (Date_now env) log
                    else log)
        (inquiry_logs db).
Proof.
  intros F Adm. unfold setRequestStatus. rewrite F, Adm.
  cbn [snd set_inquiry_logs inquiry_logs]. apply map_ext.
  intros log. rewrite andb_true_r. reflexivity.
Qed.

(** Whoever calls, a decision changes neither the user nor the creation
    time nor the id of a log. *)
Lemma setRequestStatus_rows (env : Env) (db : Db number) (logId : uuid)
    (st : Decision) :
  exists f : InquiryLogRow number -> InquiryLogRow number,
    inquiry_logs (snd (setRequestStatus env db logId st)) = map f (inquiry_logs db) /\
    (forall log, user_id (f log) = user_id log) /\
    (forall log, entry_identity (request_of_log (f log))
                 = entry_identity (request_of_log log)) /\
    (forall log, id log <> logId -> f log = log).
Proof.
  unfold setRequestStatus. destruct (fault env UpdateInquiryLog) as [e|].
  - exists (fun log => log). cbn [snd]. rewrite map_id. repeat split.
  - exists (fun log => if String.eqb (id log) logId && auth_is_admin env
                       then update_log (Decision_status st) (Date_now env) log
                       else log).
    cbn [snd set_inquiry_logs inquiry_logs]. split; [reflexivity|].
    repeat split; intros log;
      destruct (String.eqb (id log) logId) eqn:E;
      destruct (auth_is_admin env); cbn [andb]; try reflexivity.
    intros Hne. apply String.eqb_eq in E. contradiction.
Qed.

(** X4.  From the request to the disclosure: when [requestPrice] has
    returned a request and an administrator then approves it with
    [setRequestStatus], the list of the user shows that request as
    approved and with a price. *)
Theorem approved_request_shows_price (env1 env2 env3 : Env) (db : Db number)
    (userId deviceId projectId : uuid) (dto : RequestStatusDTO) :
  fst (requestPrice env1 db userId deviceId projectId) = Returns dto ->
  fault env2 UpdateInquiryLog = None ->
  auth_is_admin env2 = true ->
  fault env3 SelectUserRequests = None ->
  let db1 := snd (requestPrice env1 db userId deviceId projectId) in
  let db2 := snd (setRequestStatus env2 db1 (requestId dto) Approved) in
  exists r entry price,
    getUserRequests env3 db2 userId = Returns r /\
    In entry r /\ requestId entry = requestId dto /\
    dto_status entry = approved /\ sellPriceEUR entry = Some price.
Proof.
  intros H F2 A2 F3. cbv zeta.
  destruct (requestPrice_returned_log _ _ _ _ _ _ H) as (log & Hin & Hid & Hu & _).
  set (db1 := snd (requestPrice env1 db userId deviceId projectId)) in *.
  eexists. exists (request_of_log (update_log approved (Date_now env2) log)).
  exists (sell_price_eur_snapshot log).
  split; [apply (getUserRequests_rows _ _ _ F3)|].
  split; [|cbn; auto].
  apply in_map, order_desc_In, scan_In, filter_In. split.
  - rewrite (setRequestStatus_logs _ _ _ _ F2 A2). apply in_map_iff.
    exists log. split; [|exact Hin]. rewrite Hid, String.eqb_refl. reflexivity.
  - cbn. rewrite Hu. apply String.eqb_refl.
Qed.

Lemma approved_request_shows_price_witness :
  exists r entry price,
    getUserRequests (env_of no_call log3 0)
      (snd (setRequestStatus (env_of no_call log2 5000)
              (snd (requestPrice (env_of no_call log1 1000) (ledger [])
                                 user1 outdoor_unit project1))
              log1 Approved))
      user1 = Returns r /\
    In entry r /\ requestId entry = log1 /\
    dto_status entry = approved /\ sellPriceEUR entry = Some price.
Proof.
  apply (approved_request_shows_price
           (env_of no_call log1 1000) (env_of no_call log2 5000)
           (env_of no_call log3 0) (ledger []) user1 outdoor_unit project1
           {| requestId := log1; dto_deviceId := outdoor_unit;
              dto_projectId := project1; dto_status := pending;
              sellPriceEUR := None; timestamp := 1 |});
    vm_compute; reflexivity.
Defined.

(** X5.  A rejection withdraws the price: once an administrator has
    rejected a log with [setRequestStatus], whatever its status was
    before, no entry of that id in any user's list carries a price. *)
Theorem rejected_request_hides_price (env env' : Env) (db : Db number)
    (logId userId : uuid) (r : list RequestStatusDTO) (entry : RequestStatusDTO) :
  fault env UpdateInquiryLog = None ->
  auth_is_admin env = true ->
  getUserRequests env' (snd (setRequestStatus env db logId Rejected)) userId
  = Returns r ->
  In entry r -> requestId entry = logId ->
  dto_status entry = rejected /\ sellPriceEUR entry = None.
Proof.
  intros F Adm Hr Hin Hid.
  destruct (fault env' SelectUserRequests) as [e|] eqn:F'.
  - rewrite (getUserRequests_failed _ _ _ _ F') in Hr. inversion Hr; subst r.
    contradiction.
  - rewrite (getUserRequests_rows _ _ _ F') in Hr. inversion Hr; subst r; clear Hr.
    apply in_map_iff in Hin as (log & <- & Hin).
    apply order_desc_In, scan_In, filter_In in Hin as [Hin _].
    rewrite (setRequestStatus_logs _ _ _ _ F Adm) in Hin.
    apply in_map_iff in Hin as (log0 & E & _). cbn in Hid.
    destruct (String.eqb (id log0) logId) eqn:Eq.
    + subst log. cbn. auto.
    + subst log. apply String.eqb_neq in Eq. contradiction.
Qed.

Lemma rejected_request_hides_price_witness :
  dto_status (request_of_log (update_log rejected 9000 (inquiry log1 approved 0)))
  = rejected /\
  sellPriceEUR (request_of_log (update_log rejected 9000 (inquiry log1 approved 0)))
  = None.
Proof.
  apply (rejected_request_hides_price
           (env_of no_call log2 9000) (env_of no_call log2 0)
           (ledger [inquiry log1 approved 0]) log1 user1
           [request_of_log (update_log rejected 9000 (inquiry log1 approved 0))]);
    [reflexivity|reflexivity|vm_compute; reflexivity|left; reflexivity|reflexivity].
Defined.

Lemma filter_map_commute (A B : Type) (f : A -> B) (p : B -> bool) (l : list A) :
  filter p (map f l) = map f (filter (fun a => p (f a)) l).
Proof.
  induction l as [|x l IH]; cbn; [reflexivity|].
  destruct (p (f x)); cbn; rewrite IH; reflexivity.
Qed.

(** X6.  A decision removes no request from the list of a user and
    adds none: whoever calls [setRequestStatus] and whether it succeeds
    or not, two readings of the list that the store answers, one before
    and one after, show the same requests with the same device, project
    and time (in an order that the store may choose anew among equal
    times), the later one newest first, and every entry of another id
    is in both. *)
Theorem setRequestStatus_keeps_listing (env env1 env2 : Env) (db : Db number)
    (logId userId : uuid) (st : Decision) :
  fault env1 SelectUserRequests = None ->
  fault env2 SelectUserRequests = None ->
  exists before after,
    getUserRequests env1 db userId = Returns before /\
    getUserRequests env2 (snd (setRequestStatus env db logId st)) userId
    = Returns after /\
    Permutation (map entry_identity before) (map entry_identity after) /\
    StronglySorted (desc timestamp) after /\
    (forall e, requestId e <> logId -> In e before <-> In e after).
Proof.
  intros F1 F2.
  destruct (setRequestStatus_rows env db logId st) as (f & Hf & Hu & Hi & Hsame).
  rewrite (getUserRequests_rows _ _ _ F1), (getUserRequests_rows _ _ _ F2), Hf.
  rewrite filter_map_commute.
  rewrite (filter_ext (fun log => String.eqb (user_id (f log)) userId)
                      (fun log => String.eqb (user_id log) userId))
    by (intros log; rewrite Hu; reflexivity).
  set (mine := filter (fun log => String.eqb (user_id log) userId) (inquiry_logs db)).
  eexists. eexists. split; [reflexivity|]. split; [reflexivity|].
  split; [|split].
  - rewrite !map_map.
    apply Permutation_trans with (map (fun log => entry_identity (request_of_log log))
                                      mine).
    + apply Permutation_map, Permutation_sym.
      eapply Permutation_trans; [apply scan_perm|apply order_desc_perm].
    + apply Permutation_trans
        with (map (fun log => entry_identity (request_of_log log)) (map f mine)).
      * rewrite map_map, (map_ext _ _ Hi). apply Permutation_refl.
      * apply Permutation_map.
        eapply Permutation_trans; [apply scan_perm|apply order_desc_perm].
  - apply sorted_requests, order_desc_sorted.
  - intros e He. rewrite !in_map_iff. split; intros (log & E & Hin); exists log;
      (split; [exact E|]);
      apply order_desc_In, scan_In; apply order_desc_In, scan_In in Hin.
    + apply in_map_iff. exists log. split; [|exact Hin].
      apply Hsame. subst e. exact He.
    + apply in_map_iff in Hin as (log0 & E0 & Hin0).
      assert (Hid : id log0 <> logId).
      { intros K. apply He. subst e log.
        pose proof (Hi log0) as Hk. unfold entry_identity in Hk.
        inversion Hk as [[K1 K2 K3 K4]]. cbn in K1 |- *. rewrite K1. exact K. }
      rewrite (Hsame log0 Hid) in E0. subst log0. exact Hin0.
Qed.

Lemma setRequestStatus_keeps_listing_witness :
  exists before after,
    getUserRequests (env_of no_call log3 0)
                    (ledger [inquiry log1 pending 1000; inquiry log2 pending 1000])
                    user1
    = Returns before /\
    getUserRequests (with_scan (fun n => (1 - n)%nat) (env_of no_call log3 0))
      (snd (setRequestStatus (env_of no_call log3 9000)
              (ledger [inquiry log1 pending 1000; inquiry log2 pending 1000])
              log1 Approved))
      user1
    = Returns after /\
    Permutation (map entry_identity before) (map entry_identity after) /\
    StronglySorted (desc timestamp) after /\
    (forall e, requestId e <> log1 -> In e before <-> In e after).
Proof.
  apply (setRequestStatus_keeps_listing
           (env_of no_call log3 9000) (env_of no_call log3 0)
           (with_scan (fun n => (1 - n)%nat) (env_of no_call log3 0))
           (ledger [inquiry log1 pending 1000; inquiry log2 pending 1000])
           log1 user1 Approved); reflexivity.
Defined.

(** X7.  The last decision wins: two calls of [setRequestStatus] on the
    same log, the second of which is made by an administrator and
    succeeds, leave the store as the second call alone does, whoever
    made the first call and whether it succeeded or not. *)
Theorem setRequestStatus_last_wins (env1 env2 : Env) (db : Db number)
    (logId : uuid) (st1 st2 : Decision) :
  fault env2 UpdateInquiryLog = None ->
  auth_is_admin env2 = true ->
  setRequestStatus env2 (snd (setRequestStatus env1 db logId st1)) logId st2
  = setRequestStatus env2 db logId st2.
Proof.
  intros F2 A2. unfold setRequestStatus. rewrite F2, A2.
  destruct (fault env1 UpdateInquiryLog); [reflexivity|].
  cbn [snd set_inquiry_logs inquiry_logs categories devices global_settings projects].
  f_equal. unfold set_inquiry_logs. f_equal.
  rewrite map_map. apply map_ext. intros log.
  destruct (String.eqb (id log) logId) eqn:E; destruct (auth_is_admin env1);
    cbn [andb id update_log]; rewrite ?E; reflexivity.
Qed.

Lemma setRequestStatus_last_wins_witness :
  setRequestStatus (env_of no_call log2 7000)
    (snd (setRequestStatus (as_employee (env_of no_call log2 3000))
                           (ledger [inquiry log1 pending 0]) log1 Approved))
    log1 Rejected
  = setRequestStatus (env_of no_call log2 7000) (ledger [inquiry log1 pending 0])
                     log1 Rejected.
Proof.
  apply (setRequestStatus_last_wins (as_employee (env_of no_call log2 3000))
                                    (env_of no_call log2 7000));
    reflexivity.
Defined.

(** X8.  The SQL function [request_price] writes on every success: a
    call either raises and leaves the store as it was, or appends one
    pending row for the caller, whose price is the [sell_price] of
    [calculate_price_logic]; pending rows for the same device and
    project do not stop it. *)
Theorem request_price_always_inserts (env : Env) (caller : uuid) (db : Db numeric)
    (p_device_id p_project_id : uuid) :
  let r := Sql.request_price env caller db p_device_id p_project_id in
  (forall msg, fst r = Throws msg -> snd r = db) /\
  (forall j, fst r = Returns j ->
     exists row log,
       Sql.calculate_price_logic env db p_device_id = Returns row /\
       inquiry_logs (snd r) = inquiry_logs db ++ [log] /\
       id log = Sql.r_requestId j /\ user_id log = caller /\
       device_id log = p_device_id /\ project_id log = p_project_id /\
       status log = pending /\
       sell_price_eur_snapshot log = Sql.sell_price row) /\
  (forall row, Sql.calculate_price_logic env db p_device_id = Returns row ->
               fault env InsertInquiryLog = None ->
               exists j, fst r = Returns j).
Proof.
  cbv zeta. unfold Sql.request_price.
  destruct (Sql.calculate_price_logic env db p_device_id) as [row|msg].
  - destruct (fault env InsertInquiryLog) as [e|]; cbn [fst snd].
    + split; [reflexivity|]. split; [discriminate|]. discriminate.
    + split; [discriminate|]. split.
      * intros j Hj. inversion Hj; subst j.
        exists row. eexists. split; [reflexivity|]. split; [reflexivity|].
        cbn. repeat split.
      * intros row' _ _. eexists. reflexivity.
  - cbn [fst snd]. split; [reflexivity|]. split; discriminate.
Qed.

Lemma request_price_always_inserts_witness :
  exists j,
    fst (Sql.request_price (env_of no_call log2 0) user1
           (snd (Sql.request_price (env_of no_call log1 0) user1 shop_db
                                   outdoor_unit project1))
           outdoor_unit project1) = Returns j.
Proof.
  destruct (request_price_always_inserts
              (env_of no_call log2 0) user1
              (snd (Sql.request_price (env_of no_call log1 0) user1 shop_db
                                      outdoor_unit project1))
              outdoor_unit project1) as (_ & _ & H).
  eapply H; vm_compute; reflexivity.
Defined.

(** ** The settings *)

Lemma updateSettings_cases (cl : Client) (db : Db number) (S : GlobalSettings) :
  updateSettings cl db S
  = (Returns tt,
     set_global_settings db
       (map (fun s => if settings_target cl S s then write_settings S s else s)
            (global_settings db)))
  \/ exists msg, updateSettings cl db S = (Throws msg, db).
Proof.
  unfold updateSettings. destruct (request_fault cl UpdateSettings); [eauto|].
  destruct (filter (settings_target cl S) (global_settings db)); [auto|].
  destruct (first_null S); eauto.
Qed.

(** X9.  [updateSettings] changes coefficients only: it touches no other
    table, so no stored price snapshot changes, and it neither adds nor
    removes nor activates nor deactivates a settings row: the rows keep
    their ids, their [is_active] and their creation times, in place. *)
Theorem updateSettings_frame (cl : Client) (db : Db number) (S : GlobalSettings) :
  let db' := snd (updateSettings cl db S) in
  categories db' = categories db /\
  devices db' = devices db /\
  projects db' = projects db /\
  inquiry_logs db' = inquiry_logs db /\
  map s_id (global_settings db') = map s_id (global_settings db) /\
  map s_is_active (global_settings db') = map s_is_active (global_settings db) /\
  map s_created_at (global_settings db') = map s_created_at (global_settings db) /\
  map s_id (active_settings db') = map s_id (active_settings db).
Proof.
  cbv zeta. destruct (updateSettings_cases cl db S) as [E | [msg E]]; rewrite E;
    cbn [snd]; [|repeat split].
  cbn [set_global_settings categories devices projects inquiry_logs global_settings].
  repeat (split; [reflexivity|]).
  assert (K : forall (B : Type) (g : SettingsRow number -> B),
             (forall s, g (write_settings S s) = g s) ->
             forall s, g (if settings_target cl S s then write_settings S s else s)
                       = g s)
    by (intros B g Hg s; destruct (settings_target cl S s); [apply Hg|reflexivity]).
  repeat split.
  - rewrite map_map. apply map_ext, K. reflexivity.
  - rewrite map_map. apply map_ext, K. reflexivity.
  - rewrite map_map. apply map_ext, K. reflexivity.
  - unfold active_settings. cbn [set_global_settings global_settings].
    rewrite filter_map_commute, map_map.
    rewrite (filter_ext _ s_is_active) by (apply K; reflexivity).
    apply map_ext. intros s. apply K. reflexivity.
Qed.

Lemma first_null_none (S : GlobalSettings) :
  first_null S = None ->
  forallb is_finite (map snd (settings_update S)) = true.
Proof.
  unfold first_null. intros H.
  destruct (find _ (settings_update S)) eqn:F; [discriminate|].
  apply forallb_forall. intros x Hx. apply in_map_iff in Hx as (cv & <- & Hin).
  pose proof (find_none _ _ F cv Hin) as Hn. cbn in Hn.
  destruct (is_finite (snd cv)); [reflexivity|discriminate].
Qed.

(** X10.  No call of [updateSettings] brings NaN or an infinity into
    the settings: when every coefficient in the table is finite before,
    every coefficient is finite afterwards. *)
Theorem updateSettings_keeps_finite (cl : Client) (db : Db number)
    (S : GlobalSettings) :
  forallb coefficients_finite (global_settings db) = true ->
  forallb coefficients_finite (global_settings (snd (updateSettings cl db S))) = true.
Proof.
  intros H. unfold updateSettings.
  destruct (request_fault cl UpdateSettings); [exact H|].
  destruct (filter (settings_target cl S) (global_settings db)) as [|t ts] eqn:Ft.
  - cbn [snd set_global_settings global_settings].
    rewrite forallb_forall in *. intros s' Hin.
    apply in_map_iff in Hin as (s & <- & Hin).
    destruct (settings_target cl S s) eqn:T; [|apply H, Hin].
    assert (Hf : In s (filter (settings_target cl S) (global_settings db)))
      by (apply filter_In; auto).
    rewrite Ft in Hf. contradiction.
  - destruct (first_null S) eqn:N; [exact H|].
    cbn [snd set_global_settings global_settings].
    apply first_null_none in N.
    rewrite forallb_forall in H |- *. intros s' Hin.
    apply in_map_iff in Hin as (s & <- & Hin).
    destruct (settings_target cl S s); [|apply H, Hin].
    unfold coefficients_finite, write_settings, as_stored.
    cbn [s_discount_multiplier s_freight_rate_per_length_eur s_customs_numerator
         s_customs_denominator s_warranty_rate s_internal_commission_factor
         s_company_cost_factor s_profit_factor discountMultiplier
         freightRatePerLengthEUR customsNumerator customsDenominator warrantyRate
         internalCommissionFactor companyCostFactor profitFactor].
    assert (K : forall x, is_finite (through_json x) = is_finite x)
      by (intros [| | |]; reflexivity).
    cbn [forallb]. rewrite !K. exact N.
Qed.

Lemma updateSettings_keeps_finite_witness :
  forallb coefficients_finite
    (global_settings (snd (updateSettings (client_of no_request log1 0)
                                          (client_view shop_db) infinite_profit)))
  = true.
Proof.
  apply (updateSettings_keeps_finite (client_of no_request log1 0)
                                     (client_view shop_db) infinite_profit).
  vm_compute. reflexivity.
Defined.

(** X11.  New settings take effect on the next calculation: after
    [updateSettings] has succeeded on the one active row, the breakdown
    of a device is the one [calculateBreakdown] computes with the new
    coefficients, as the store received them (a negative zero arrives as
    zero). *)
Theorem updateSettings_takes_effect (cl : Client) (env : Env) (db : Db number)
    (S : GlobalSettings) (s : SettingsRow number)
    (deviceId : uuid) (device : DeviceRow number) :
  fst (updateSettings cl db S) = Returns tt ->
  active_settings db = [s] ->
  s_id s = gs_id S ->
  settings_policy cl s = true ->
  device_by_id db deviceId = [device] ->
  fault env SelectDevice = None ->
  fault env SelectSettings = None ->
  getDeviceBreakdown env (snd (updateSettings cl db S)) deviceId
  = Returns (calculateBreakdown (toDevice device) (as_stored S)).
Proof.
  intros Hr Ha Hid Hp Hd Fd Fs.
  destruct (updateSettings_cases cl db S) as [E | [msg E]]; rewrite E in *;
    [|discriminate].
  cbn [snd]. unfold getDeviceBreakdown. rewrite Fd, Fs.
  assert (Ha' : active_settings
                  (set_global_settings db
                     (map (fun s0 => if settings_target cl S s0
                                     then write_settings S s0 else s0)
                          (global_settings db)))
                = [write_settings S s]).
  { unfold active_settings in *. cbn [set_global_settings global_settings].
    rewrite filter_map_commute.
    rewrite (filter_ext _ s_is_active)
      by (intros s0; destruct (settings_target cl S s0); reflexivity).
    rewrite Ha. cbn. unfold settings_target. rewrite Hid, String.eqb_refl, Hp.
    reflexivity. }
  rewrite Ha'. unfold device_by_id in *. cbn [set_global_settings devices].
  rewrite Hd. reflexivity.
Qed.

Lemma updateSettings_takes_effect_witness :
  getDeviceBreakdown (env_of no_call log1 0)
    (snd (updateSettings (client_of no_request log1 0) (client_view shop_db)
                         half_profit))
    outdoor_unit
  = Returns (calculateBreakdown worked_device (as_stored half_profit)).
Proof.
  apply (updateSettings_takes_effect
           (client_of no_request log1 0) (env_of no_call log1 0)
           (client_view shop_db) half_profit (client_settings seed_settings)
           outdoor_unit
           (client_device (device_row outdoor_unit cat_vrf "VRF-Outdoor-20HP"
                                      (dec 15000 0) (dec 25 1) (dec 400 0))));
    reflexivity.
Defined.

(** ** Ordering, continued *)

Section OrderMore.
Context {A : Type} (key : A -> Z).

Lemma order_asc_sorted (l : list A) : StronglySorted (asc key) (order_asc key l).
Proof.
  unfold order_asc.
  eapply StronglySorted_ind with (P := fun l' => StronglySorted (asc key) l');
    [constructor| |apply (order_desc_sorted (fun x => - key x) l)].
  intros a l' _ IH Hall. constructor; [exact IH|].
  eapply Forall_impl; [|exact Hall]. unfold desc, asc. intros b Hb. lia.
Qed.

Lemma order_asc_In (l : list A) (x : A) : In x (order_asc key l) <-> In x l.
Proof. apply order_desc_In. Qed.





End OrderMore.

Lemma sorted_map (A B : Type) (f : A -> B) (R : A -> A -> Prop) (R' : B -> B -> Prop)
    (l : list A) :
  (forall a b, R a b -> R' (f a) (f b)) ->
  StronglySorted R l -> StronglySorted R' (map f l).
Proof.
  intros H. induction 1 as [|a l Hs IH Hall]; cbn; constructor.
  - exact IH.
  - apply Forall_map. eapply Forall_impl; [|exact Hall]. intros b. apply H.
Qed.

Lemma filter_length_map_le (A : Type) (g : A -> A) (P Q : A -> bool) (l : list A) :
  (forall a, P (g a) = true -> Q a = true) ->
  (List.length (filter P (map g l)) <= List.length (filter Q l))%nat.
Proof.
  intros H. induction l as [|a l IH]; cbn; [lia|].
  destruct (P (g a)) eqn:E.
  - rewrite (H a E). cbn. lia.
  - destruct (Q a); cbn; lia.
Qed.

(** ** Comments *)

Lemma markCommentsAsRead_comments (cl : Client) (b : Board) (p : uuid) (reader : Role) :
  request_fault cl UpdateCommentsRead = None ->
  board_comments (snd (markCommentsAsRead cl b p reader))
  = map (fun c =>
           if String.eqb (cm_project_id c) p
              && Role_eqb (cm_role c)
                          match reader with admin => employee | employee => admin end
              && comment_policy cl c
              && comment_visible cl b c
           then mark_read c else c)
        (board_comments b).
Proof. intros F. unfold markCommentsAsRead. rewrite F. reflexivity. Qed.

(** What [markCommentsAsRead] does to each row, whether the update
    succeeds or not. *)
Lemma markCommentsAsRead_rows (cl : Client) (b : Board) (p : uuid) (reader : Role) :
  exists g : CommentsRow -> CommentsRow,
    board_comments (snd (markCommentsAsRead cl b p reader))
    = map g (board_comments b) /\
    (forall c, same_comment c (g c)) /\
    (forall c, cm_is_read c = true -> cm_is_read (g c) = true) /\
    (forall c, cm_is_read (g c) = false -> g c = c) /\
    (forall c, cm_project_id c <> p \/ cm_role c = reader \/
               cm_user_id c <> caller_uid cl -> g c = c).
Proof.
  unfold markCommentsAsRead.
  destruct (request_fault cl UpdateCommentsRead) as [e|]; cbn [snd board_comments].
  - exists (fun c => c). rewrite map_id. unfold same_comment. repeat split; auto.
  - eexists. split; [reflexivity|]. cbn beta. unfold same_comment.
    split; [|split; [|split]]; intros c;
      destruct (String.eqb (cm_project_id c) p) eqn:Ep;
      destruct (Role_eqb (cm_role c) _) eqn:Er;
      destruct (comment_policy cl c) eqn:Ec;
      destruct (comment_visible cl b c); cbn [andb];
      try (cbn; repeat split; auto; fail);
      try (cbn; discriminate).
    intros [Hp | [Hr | Hu]].
    + apply String.eqb_eq in Ep. contradiction.
    + rewrite Hr in Er. destruct reader; discriminate.
    + unfold comment_policy in Ec. apply String.eqb_eq in Ec. congruence.
Qed.

(** X12.  [markCommentsAsRead] never throws and touches nothing but the
    [is_read] flags: projects and inquiries stay, the comments stay as
    many, and each comment is found again with its id, project, author,
    role, text and time; no flag is ever cleared; and a comment of
    another project, or written in the reader's own role, or written by
    someone other than the caller, is left as it is. *)
Theorem markCommentsAsRead_frame (cl : Client) (b : Board) (p : uuid) (reader : Role) :
  let r := markCommentsAsRead cl b p reader in
  fst r = Returns tt /\
  board_projects (snd r) = board_projects b /\
  board_logs (snd r) = board_logs b /\
  List.length (board_comments (snd r)) = List.length (board_comments b) /\
  (forall c,
      In c (board_comments b) ->
      exists c',
        In c' (board_comments (snd r)) /\ same_comment c c' /\
        (cm_is_read c = true -> cm_is_read c' = true) /\
        (cm_project_id c <> p \/ cm_role c = reader \/
         cm_user_id c <> caller_uid cl -> c' = c)) /\
  (forall c',
      In c' (board_comments (snd r)) ->
      exists c,
        In c (board_comments b) /\ same_comment c c' /\
        (cm_is_read c' = false -> c' = c)).
Proof.
  cbv zeta.
  destruct (markCommentsAsRead_rows cl b p reader)
    as (g & Hg & Hsame & Hflag & Hunread & Hkeep).
  rewrite Hg.
  split; [unfold markCommentsAsRead;
          destruct (request_fault cl UpdateCommentsRead); reflexivity|].
  split; [unfold markCommentsAsRead;
          destruct (request_fault cl UpdateCommentsRead); reflexivity|].
  split; [unfold markCommentsAsRead;
          destruct (request_fault cl UpdateCommentsRead); reflexivity|].
  split; [apply length_map|]. split.
  - intros c Hin. exists (g c). split; [apply in_map, Hin|]. auto.
  - intros c' Hin. apply in_map_iff in Hin as (c & <- & Hin).
    exists c. split; [exact Hin|]. split; [apply Hsame|]. apply Hunread.
Qed.

Lemma markCommentsAsRead_frame_witness :
  exists c',
    In c' (board_comments (snd (markCommentsAsRead
                                  (client_as user1 false no_request note3 0) desk
                                  project1 employee))) /\
    same_comment (note note2 admin1 admin false 3000000) c' /\
    c' = note note2 admin1 admin false 3000000.
Proof.
  destruct (markCommentsAsRead_frame (client_as user1 false no_request note3 0) desk
                                     project1 employee) as (_ & _ & _ & _ & H & _).
  destruct (H (note note2 admin1 admin false 3000000))
    as (c' & Hin & Hs & _ & Hsame); [right; left; reflexivity|].
  exists c'. split; [exact Hin|]. split; [exact Hs|].
  apply Hsame. right. right. vm_compute. discriminate.
Defined.

(** X13.  The update of [markCommentsAsRead] reaches the caller's own
    comments only: after a call that the store answers, a comment of
    the project in the other role that the caller wrote, and sees, is
    read, and a comment that someone else wrote is in the store as it
    was, so that an unread comment of the other party stays unread. *)
Theorem markCommentsAsRead_marks_own_only (cl : Client) (b : Board) (p : uuid)
    (reader : Role) :
  request_fault cl UpdateCommentsRead = None ->
  let b' := snd (markCommentsAsRead cl b p reader) in
  (forall c', In c' (board_comments b') ->
              cm_project_id c' = p -> cm_role c' <> reader ->
              cm_user_id c' = caller_uid cl ->
              comment_visible cl b c' = true ->
              cm_is_read c' = true) /\
  (forall c, cm_user_id c <> caller_uid cl ->
             In c (board_comments b) <-> In c (board_comments b')).
Proof.
  intros F. cbv zeta. rewrite (markCommentsAsRead_comments _ _ _ _ F). split.
  - intros c' Hin Hp Hr Hu Hv. apply in_map_iff in Hin as (c & E & _).
    assert (Hvis : comment_visible cl b (mark_read c) = comment_visible cl b c)
      by reflexivity.
    destruct (String.eqb (cm_project_id c) p) eqn:Ep; cbn [andb] in E.
    + destruct (Role_eqb (cm_role c) _) eqn:Er; cbn [andb] in E.
      * destruct (comment_policy cl c) eqn:Ec; cbn [andb] in E.
        -- destruct (comment_visible cl b c) eqn:Ev; [subst c'; reflexivity|].
           subst c'. congruence.
        -- subst c'. unfold comment_policy in Ec. apply String.eqb_neq in Ec.
           congruence.
      * subst c'. exfalso. destruct reader, (cm_role c); try discriminate;
          apply Hr; reflexivity.
    + subst c'. apply String.eqb_neq in Ep. contradiction.
  - intros c Hu.
    assert (Hpol : forall x, cm_user_id x = cm_user_id c -> comment_policy cl x = false).
    { intros x Hx. unfold comment_policy. apply String.eqb_neq. congruence. }
    rewrite in_map_iff. split.
    + intros Hin. exists c. split; [|exact Hin].
      rewrite (Hpol c eq_refl), andb_false_r. reflexivity.
    + intros (c0 & E & Hin).
      destruct (String.eqb (cm_project_id c0) p && _ && comment_policy cl c0
                && comment_visible cl b c0) eqn:Et.
      * exfalso. apply andb_prop in Et as [Et _]. apply andb_prop in Et as [_ Et].
        rewrite Hpol in Et; [discriminate|]. subst c. reflexivity.
      * subst c0. exact Hin.
Qed.

Lemma markCommentsAsRead_marks_own_only_witness :
  cm_is_read (note note1 user1 employee true 2000000) = true /\
  In (note note2 admin1 admin false 3000000)
     (board_comments (snd (markCommentsAsRead
                             (client_as user1 false no_request note3 0) desk
                             project1 employee))).
Proof.
  split.
  - destruct (markCommentsAsRead_marks_own_only
                (client_as user1 false no_request note3 0) desk project1 admin
                eq_refl) as [H _].
    apply H; [left; reflexivity|reflexivity|discriminate|reflexivity|reflexivity].
  - destruct (markCommentsAsRead_marks_own_only
                (client_as user1 false no_request note3 0) desk project1 employee
                eq_refl) as [_ H].
    apply H; [vm_compute; discriminate|right; left; reflexivity].
Defined.

(** X14.  Marking twice is marking once, provided the policies do not
    look at the [is_read] flag. *)
Theorem markCommentsAsRead_idempotent (cl : Client) (b : Board) (p : uuid)
    (reader : Role) :
  (forall c, comment_policy cl (mark_read c) = comment_policy cl c) ->
  markCommentsAsRead cl (snd (markCommentsAsRead cl b p reader)) p reader
  = markCommentsAsRead cl b p reader.
Proof.
  intros Hpol. unfold markCommentsAsRead.
  destruct (request_fault cl UpdateCommentsRead); [reflexivity|].
  cbn [snd board_projects board_comments board_logs]. f_equal. f_equal.
  rewrite map_map. apply map_ext. intros c.
  unfold comment_visible. cbn [board_projects].
  destruct (String.eqb (cm_project_id c) p
            && Role_eqb (cm_role c) _ && comment_policy cl c && _) eqn:E;
    [|rewrite E; reflexivity].
  cbn [cm_project_id cm_role mark_read]. rewrite Hpol.
  cbn [cm_project_id cm_role mark_read] in *. rewrite E. reflexivity.
Qed.

Lemma markCommentsAsRead_idempotent_witness :
  markCommentsAsRead (client_of no_request note3 0)
    (snd (markCommentsAsRead (client_of no_request note3 0) desk project1 employee))
    project1 employee
  = markCommentsAsRead (client_of no_request note3 0) desk project1 employee.
Proof.
  apply markCommentsAsRead_idempotent. intros c. reflexivity.
Defined.

(** The count [getUnreadCommentsCountForUser] returns when its two reads
    succeed. *)
Lemma unread_count_rows (cl : Client) (b : Board) (userId : uuid) :
  request_fault cl SelectProjectIds = None ->
  request_fault cl SelectUnreadComments = None ->
  getUnreadCommentsCountForUser cl b userId
  = Returns
      (List.length
         (filter (fun c =>
                    existsb (String.eqb (cm_project_id c))
                      (map pj_id (filter (fun p => String.eqb (pj_user_id p) userId)
                                         (board_projects b)))
                    && Role_eqb (cm_role c) admin && negb (cm_is_read c))
                 (board_comments b))).
Proof.
  intros F1 F2. unfold getUnreadCommentsCountForUser. rewrite F1, F2.
  cbn [select_rows error data].
  destruct (map pj_id _) eqn:E; [|reflexivity].
  cbn [existsb andb]. f_equal. symmetry.
  induction (board_comments b) as [|c l IH]; cbn; [reflexivity|exact IH].
Qed.

Lemma filter_length_map_eq (A : Type) (g : A -> A) (P Q : A -> bool) (l : list A) :
  (forall a, In a l -> P (g a) = Q a) ->
  List.length (filter P (map g l)) = List.length (filter Q l).
Proof.
  induction l as [|a l IH]; cbn; intros H; [reflexivity|].
  rewrite (H a (or_introl eq_refl)).
  destruct (Q a); cbn; rewrite IH; auto.
Qed.

Lemma unread_count_is (cl : Client) (b : Board) (userId : uuid) :
  request_fault cl SelectProjectIds = None ->
  request_fault cl SelectUnreadComments = None ->
  getUnreadCommentsCountForUser cl b userId
  = Returns (List.length (filter (unread_for b userId) (board_comments b))).
Proof. apply unread_count_rows. Qed.

(** Any reading of the count gives the number of unread rows, or zero
    when one of its two reads fails. *)
Lemma unread_count_at_most (cl : Client) (b : Board) (userId : uuid) (n : nat) :
  getUnreadCommentsCountForUser cl b userId = Returns n ->
  (n <= List.length (filter (unread_for b userId) (board_comments b)))%nat.
Proof.
  intros H.
  destruct (request_fault cl SelectProjectIds) as [e|] eqn:F1.
  { unfold getUnreadCommentsCountForUser in H. rewrite F1 in H.
    cbn in H. inversion H. lia. }
  destruct (request_fault cl SelectUnreadComments) as [e|] eqn:F2.
  { unfold getUnreadCommentsCountForUser in H. rewrite F1, F2 in H.
    cbn [select_rows error data] in H.
    destruct (map pj_id _); inversion H; lia. }
  rewrite (unread_count_is _ _ _ F1 F2) in H. inversion H. lia.
Qed.

(** X15.  Reading never raises the number of unread comments: when the
    store answers the two reads of [getUnreadCommentsCountForUser]
    before [markCommentsAsRead], the count it returns afterwards, on
    whatever client, is at most the count before.  And it does not lower
    it either when the caller of [markCommentsAsRead] wrote none of the
    comments in the role 'admin', as the update reaches the caller's own
    comments only: when the store answers the reads after as well, the
    count is the same as before. *)
Theorem unread_count_after_reading (cl1 cl2 reader_cl : Client) (b : Board)
    (p userId : uuid) (reader : Role) (n n' : nat) :
  request_fault cl1 SelectProjectIds = None ->
  request_fault cl1 SelectUnreadComments = None ->
  getUnreadCommentsCountForUser cl1 b userId = Returns n ->
  getUnreadCommentsCountForUser cl2
    (snd (markCommentsAsRead reader_cl b p reader)) userId = Returns n' ->
  (n' <= n)%nat /\
  (request_fault cl2 SelectProjectIds = None ->
   request_fault cl2 SelectUnreadComments = None ->
   (forall c, In c (board_comments b) -> cm_role c = admin ->
              cm_user_id c <> caller_uid reader_cl) ->
   n' = n).
Proof.
  intros F1 F2 Hn Hn'.
  rewrite (unread_count_is _ _ _ F1 F2) in Hn. inversion Hn; subst n; clear Hn.
  destruct (markCommentsAsRead_rows reader_cl b p reader)
    as (g & Hg & Hsame & Hflag & Hunread & Hkeep).
  assert (Hproj : board_projects (snd (markCommentsAsRead reader_cl b p reader))
                  = board_projects b)
    by (unfold markCommentsAsRead;
        destruct (request_fault reader_cl UpdateCommentsRead); reflexivity).
  assert (Hfun : forall c,
             unread_for (snd (markCommentsAsRead reader_cl b p reader)) userId c
             = unread_for b userId c)
    by (intros c; unfold unread_for; rewrite Hproj; reflexivity).
  split.
  - apply unread_count_at_most in Hn'. rewrite Hg in Hn'.
    rewrite (filter_ext _ _ Hfun) in Hn'.
    eapply Nat.le_trans; [exact Hn'|].
    apply filter_length_map_le. intros c Hc.
    destruct (cm_is_read (g c)) eqn:Er.
    + unfold unread_for in Hc. rewrite Er, andb_false_r in Hc. discriminate.
    + rewrite (Hunread c Er) in Hc. exact Hc.
  - intros F1' F2' Hother.
    rewrite (unread_count_is _ _ _ F1' F2'), Hg in Hn'.
    inversion Hn'; clear Hn'. rewrite (filter_ext _ _ Hfun).
    apply filter_length_map_eq. intros c Hin.
    destruct (Role_eqb (cm_role c) admin) eqn:Ea.
    + rewrite Hkeep; [reflexivity|]. right. right. apply Hother; [exact Hin|].
      destruct (cm_role c); [reflexivity|discriminate].
    + destruct (Hsame c) as (_ & Hp & _ & _ & Hr & _).
      unfold unread_for. rewrite Hr, Hp, Ea, !andb_false_r. reflexivity.
Qed.

Lemma unread_count_after_reading_witness :
  getUnreadCommentsCountForUser (client_as user1 false no_request note3 0) desk user1
  = Returns 1%nat /\
  getUnreadCommentsCountForUser (client_as user1 false no_request note3 0)
    (snd (markCommentsAsRead (client_as user1 false no_request note3 0)
                             desk project1 employee))
    user1 = Returns 1%nat /\
  (1 <= 1)%nat /\ 1%nat = 1%nat.
Proof.
  split; [reflexivity|]. split; [reflexivity|].
  destruct (unread_count_after_reading
              (client_as user1 false no_request note3 0)
              (client_as user1 false no_request note3 0)
              (client_as user1 false no_request note3 0)
              desk project1 user1 employee 1 1 eq_refl eq_refl eq_refl eq_refl)
    as [Hle Heq].
  split; [exact Hle|]. apply Heq; [reflexivity|reflexivity|].
  intros c [<-|[<-|[]]] Hr; [discriminate Hr|vm_compute; discriminate].
Defined.

(** X16.  A comment that [addComment] returns is stored unread, and
    [getProjectComments] then lists it for its project; that list holds
    comments of the project only, oldest first. *)
Theorem addComment_then_listed (cl cl' : Client) (b : Board)
    (projectId userId : uuid) (userFullName content : string) (role : Role)
    (c : Comment) :
  fst (addComment cl b projectId userId userFullName content role) = Returns c ->
  request_fault cl' SelectProjectComments = None ->
  com_isRead c = false /\ com_projectId c = projectId /\
  com_content c = content /\ com_role c = role /\
  exists l,
    getProjectComments cl'
      (snd (addComment cl b projectId userId userFullName content role)) projectId
    = Returns l /\
    In c l /\
    (forall c', In c' l -> com_projectId c' = projectId) /\
    StronglySorted (asc com_timestamp) l.
Proof.
  intros H F'. unfold addComment in *.
  destruct (request_fault cl InsertComment); [discriminate|].
  cbn [fst snd] in *. inversion H; subst c; clear H. cbn.
  repeat (split; [reflexivity|]).
  eexists. unfold getProjectComments. rewrite F'.
  cbn [select_rows error data board_comments]. split; [reflexivity|].
  split; [|split].
  - apply (in_map comment_of_row), order_asc_In, scan_In, filter_In. split.
    + apply in_or_app. right. left. reflexivity.
    + cbn. apply String.eqb_refl.
  - intros c' Hc'. apply in_map_iff in Hc' as (row & <- & Hin).
    apply order_asc_In, scan_In, filter_In in Hin as [_ Hp]. apply String.eqb_eq in Hp.
    exact Hp.
  - eapply sorted_map; [|apply order_asc_sorted].
    intros x y Hxy. unfold asc in *. cbn. apply getTime_monotone, Hxy.
Qed.

Lemma addComment_then_listed_witness :
  exists l,
    getProjectComments (client_of no_request note3 0)
      (snd (addComment (client_of no_request note3 4000000) desk project1 admin1
                       "Admin" "Tomorrow." admin)) project1
    = Returns l /\
    List.length l = 3%nat.
Proof.
  destruct (addComment_then_listed
              (client_of no_request note3 4000000) (client_of no_request note3 0)
              desk project1 admin1 "Admin" "Tomorrow." admin
              (comment_of_row
                 {| cm_id := note3; cm_project_id := project1; cm_user_id := admin1;
                    cm_user_full_name := "Admin"; cm_role := admin;
                    cm_content := "Tomorrow."; cm_is_read := false;
                    cm_created_at := 4000000 |})
              eq_refl eq_refl) as (_ & _ & _ & _ & l & Hl & _).
  exists l. split; [exact Hl|].
  vm_compute in Hl. inversion Hl. reflexivity.
Defined.

(** X17.  A comment an admin adds to a project of the user raises the
    user's unread count by one; a comment an employee adds leaves it as
    it is. *)
Theorem addComment_unread_count (cl cl' : Client) (b : Board)
    (projectId authorId userId : uuid) (userFullName content : string)
    (role : Role) (c : Comment) (pr : ProjectsRow) :
  fst (addComment cl b projectId authorId userFullName content role) = Returns c ->
  request_fault cl' SelectProjectIds = None ->
  request_fault cl' SelectUnreadComments = None ->
  In pr (board_projects b) -> pj_user_id pr = userId -> pj_id pr = projectId ->
  exists n,
    getUnreadCommentsCountForUser cl' b userId = Returns n /\
    getUnreadCommentsCountForUser cl'
      (snd (addComment cl b projectId authorId userFullName content role)) userId
    = Returns match role with admin => S n | employee => n end.
Proof.
  intros H F1 F2 Hin Hu Hp. unfold addComment in *.
  destruct (request_fault cl InsertComment); [discriminate|]. cbn [fst snd] in *.
  rewrite !(unread_count_rows _ _ _ F1 F2). eexists. split; [reflexivity|].
  cbn [board_projects board_comments]. f_equal.
  rewrite filter_app, length_app. cbn [filter cm_project_id cm_role cm_is_read].
  assert (Hex : existsb (String.eqb projectId)
                  (map pj_id (filter (fun p => String.eqb (pj_user_id p) userId)
                                     (board_projects b))) = true).
  { apply existsb_exists. exists projectId. split; [|apply String.eqb_refl].
    apply in_map_iff. exists pr. split; [exact Hp|].
    apply filter_In. split; [exact Hin|]. rewrite Hu. apply String.eqb_refl. }
  rewrite Hex. destruct role; cbn; lia.
Qed.

Lemma addComment_unread_count_witness :
  exists n,
    getUnreadCommentsCountForUser (client_of no_request note3 0) desk user1
    = Returns n /\
    getUnreadCommentsCountForUser (client_of no_request note3 0)
      (snd (addComment (client_of no_request note3 4000000) desk project1 admin1
                       "Admin" "Tomorrow." admin)) user1
    = Returns (S n).
Proof.
  apply (addComment_unread_count
           (client_of no_request note3 4000000) (client_of no_request note3 0)
           desk project1 admin1 user1 "Admin" "Tomorrow." admin
           (comment_of_row
              {| cm_id := note3; cm_project_id := project1; cm_user_id := admin1;
                 cm_user_full_name := "Admin"; cm_role := admin;
                 cm_content := "Tomorrow."; cm_is_read := false;
                 cm_created_at := 4000000 |})
           {| pj_id := project1; pj_user_id := user1; pj_name := "Tower A";
              pj_created_at := 1000000 |});
    try reflexivity. left. reflexivity.
Defined.

(** ** Projects *)

(** X18.  A project that [createProject] returns belongs to the user,
    and [getUserProjects] then lists it; that list holds projects of the
    user only, newest first. *)
Theorem createProject_then_listed (cl cl' : Client) (b : Board)
    (userId : uuid) (name : string) (prj : Project) :
  fst (createProject cl b userId name) = Returns prj ->
  request_fault cl' SelectUserProjects = None ->
  prj_userId prj = userId /\ prj_name prj = name /\
  exists l,
    getUserProjects cl' (snd (createProject cl b userId name)) userId = Returns l /\
    In prj l /\
    (forall p, In p l -> prj_userId p = userId) /\
    StronglySorted (desc prj_createdAt) l /\
    List.length l
    = S (List.length (filter (fun p => String.eqb (pj_user_id p) userId)
                             (board_projects b))).
Proof.
  intros H F'. unfold createProject in *.
  destruct (request_fault cl InsertProject); [discriminate|].
  cbn [fst snd] in *. inversion H; subst prj; clear H. cbn.
  repeat (split; [reflexivity|]).
  eexists. unfold getUserProjects. rewrite F'.
  cbn [select_rows error data board_projects]. split; [reflexivity|].
  split; [|split; [|split]].
  - apply (in_map project_of_row), order_desc_In, scan_In, filter_In. split.
    + apply in_or_app. right. left. reflexivity.
    + cbn. apply String.eqb_refl.
  - intros p Hp. apply in_map_iff in Hp as (row & <- & Hin).
    apply order_desc_In, scan_In, filter_In in Hin as [_ Hu]. apply String.eqb_eq in Hu.
    exact Hu.
  - eapply sorted_map; [|apply order_desc_sorted].
    intros x y Hxy. unfold desc in *. cbn. apply getTime_monotone, Hxy.
  - rewrite length_map.
    rewrite <- (Permutation_length (order_desc_perm pj_created_at _)).
    rewrite scan_length.
    rewrite filter_app, length_app. cbn. rewrite String.eqb_refl. cbn. lia.
Qed.

Lemma createProject_then_listed_witness :
  exists l,
    getUserProjects (client_of no_request note3 0)
      (snd (createProject (client_of no_request log3 5000000) desk user1 "Tower B"))
      user1 = Returns l /\
    List.length l = 2%nat.
Proof.
  destruct (createProject_then_listed
              (client_of no_request log3 5000000) (client_of no_request note3 0)
              desk user1 "Tower B"
              (project_of_row {| pj_id := log3; pj_user_id := user1;
                                 pj_name := "Tower B"; pj_created_at := 5000000 |})
              eq_refl eq_refl) as (_ & _ & l & Hl & _ & _ & _ & Hlen).
  exists l. split; [exact Hl|exact Hlen].
Defined.

(** ** The summaries of the projects *)





(** The last activity of a project depends on the comment that the
    unordered select of its comments returns last: on the same board it
    is 3000 when the comment of time 3000 comes last, and 2500, the time
    of the inquiry, when the comment of time 2000 does. *)
Lemma lastActivity_follows_the_scan :
  bind (getAdminProjectSummaries (client_of no_request note3 0) desk)
       (fun l => Returns (map sum_lastActivity l))
  = Returns [3000] /\
  bind (getAdminProjectSummaries
          (scanning (fun n => (1 - n)%nat) (client_of no_request note3 0)) desk)
       (fun l => Returns (map sum_lastActivity l))
  = Returns [2500].
Proof. split; vm_compute; reflexivity. Qed.

(** ** The device search *)




(** ** The sign of the price *)

Lemma shr_1_nonneg (mrs : shr_record) : 0 <= shr_m mrs -> 0 <= shr_m (shr_1 mrs).
Proof.
  destruct mrs as [m r s]. destruct m as [|[p|p|]|p]; cbn; intros H; lia.
Qed.

Lemma iter_shr_1_nonneg (p : positive) (mrs : shr_record) :
  0 <= shr_m mrs -> 0 <= shr_m (iter_pos shr_1 p mrs).
Proof.
  revert mrs. induction p as [p IH|p IH|]; intros mrs H; cbn.
  - apply IH, IH, shr_1_nonneg, H.
  - apply IH, IH, H.
  - apply shr_1_nonneg, H.
Qed.

Lemma shr_fexp_nonneg (m e : Z) (l : location) :
  0 <= m -> 0 <= shr_m (fst (shr_fexp prec emax m e l)).
Proof.
  intros H. unfold shr_fexp, shr.
  assert (H0 : 0 <= shr_m (shr_record_of_loc m l))
    by (destruct l as [|[]]; exact H).
  destruct (fexp prec emax (Zdigits2 m + e) - e); cbn [fst]; try exact H0.
  apply iter_shr_1_nonneg, H0.
Qed.

Lemma round_nearest_even_nonneg (m : Z) (l : location) :
  0 <= m -> 0 <= round_nearest_even m l.
Proof.
  intros H. destruct l as [|[]]; cbn; try lia. destruct (Z.even m); lia.
Qed.

(** Rounding keeps the sign and yields no NaN. *)
Lemma binary_round_aux_nonneg (m e : Z) (l : location) :
  0 <= m -> is_nonnegative (binary_round_aux prec emax false m e l) = true.
Proof.
  intros H. unfold binary_round_aux.
  pose proof (shr_fexp_nonneg m e l H) as H1.
  destruct (shr_fexp prec emax m e l) as [mrs' e'] eqn:E1. cbn [fst] in H1.
  pose proof (shr_fexp_nonneg _ e' loc_Exact
                (round_nearest_even_nonneg _ (loc_of_shr_record mrs') H1)) as H2.
  destruct (shr_fexp prec emax (round_nearest_even (shr_m mrs') _) e' loc_Exact)
    as [mrs'' e''] eqn:E2. cbn [fst] in H2.
  destruct (shr_m mrs'') as [|p|p]; [reflexivity| |lia].
  destruct (e'' <=? emax - prec); reflexivity.
Qed.

Lemma mul_positive (x y : number) :
  is_positive x = true -> is_positive y = true -> is_nonnegative (mul x y) = true.
Proof.
  destruct x as [| | |[] mx ex]; try discriminate.
  destruct y as [| | |[] my ey]; try discriminate.
  intros _ _. apply binary_round_aux_nonneg. lia.
Qed.

Lemma mul_positive_nonnegative (x y : number) :
  is_positive x = true -> is_nonnegative y = true ->
  is_nonnegative (mul x y) = true.
Proof.
  destruct x as [| | |[] mx ex]; try discriminate.
  destruct y as [[]|[]| |[] my ey]; try discriminate; intros _ _; try reflexivity.
  apply binary_round_aux_nonneg. lia.
Qed.

Lemma mul_nonnegative_positive (x y : number) :
  is_nonnegative x = true -> is_positive y = true ->
  is_nonnegative (mul x y) = true.
Proof.
  destruct y as [| | |[] my ey]; try discriminate.
  destruct x as [[]|[]| |[] mx ex]; try discriminate; intros _ _; try reflexivity.
  apply binary_round_aux_nonneg. lia.
Qed.

Lemma div_nonnegative_positive (x y : number) :
  is_nonnegative x = true -> is_positive y = true ->
  is_nonnegative (div x y) = true.
Proof.
  destruct y as [| | |[] my ey]; try discriminate.
  destruct x as [[]|[]| |[] mx ex]; try discriminate; intros _ _; try reflexivity.
  unfold div, SFdiv.
  destruct (SFdiv_core_binary prec emax (Z.pos mx) ex (Z.pos my) ey)
    as [[mz ez] lz] eqn:E.
  apply binary_round_aux_nonneg.
  unfold SFdiv_core_binary in E.
  set (m' := match _ - _ - _ with Z0 => Z.pos mx | Zpos _ => _ | Zneg _ => 0 end) in E.
  assert (Hm' : 0 <= m').
  { unfold m'. destruct (ex - ey - _) as [|s|s]; try lia.
    apply Z.shiftl_nonneg. lia. }
  pose proof (Z_div_mod m' (Z.pos my) ltac:(lia)) as Hdm.
  destruct (Z.div_eucl m' (Z.pos my)) as [q r]. inversion E; subst.
  destruct Hdm as [Hm Hr]. nia.
Qed.

Lemma add_nonnegative (x y : number) :
  is_nonnegative x = true -> is_nonnegative y = true ->
  is_nonnegative (add x y) = true.
Proof.
  destruct x as [[]|[]| |[] mx ex]; try discriminate;
    destruct y as [[]|[]| |[] my ey]; try discriminate; intros _ _;
    try reflexivity.
  unfold add, SFadd. cbn [cond_Zopp].
  set (a := fst (shl_align mx ex (Z.min ex ey))).
  set (b := fst (shl_align my ey (Z.min ex ey))).
  change (Z.pos a + Z.pos b) with (Z.pos (a + b)). cbn [binary_normalize].
  unfold binary_round.
  destruct (shl_align (a + b) _ _) as [mz ez].
  apply binary_round_aux_nonneg. lia.
Qed.

Lemma Math_ceil_nonnegative (x : number) :
  is_nonnegative x = true -> is_nonnegative (Math_ceil x) = true.
Proof.
  destruct x as [[]|[]| |[] m e]; try discriminate; intros _; try reflexivity.
  unfold Math_ceil. destruct (0 <=? e); [reflexivity|].
  assert (K : forall z, is_nonnegative (of_int false z) = true).
  { intros z. unfold of_int. destruct z; try reflexivity.
    destruct (prec - Zdigits2 (Z.pos p)); reflexivity. }
  destruct (Z.shiftl _ _ =? Z.pos m); apply K.
Qed.

(** X21.  For a device and a parameter set whose eleven numbers are all
    finite and above zero, the price of [calculateBreakdown] is never
    NaN and never negative: it is a finite number not below zero, or
    Infinity when the computation overflows. *)
Theorem sellPrice_nonnegative (device : Device) (settings : GlobalSettings) :
  is_positive (factoryPriceEUR device) = true ->
  is_positive (length device) = true ->
  is_positive (weight device) = true ->
  is_positive (discountMultiplier settings) = true ->
  is_positive (freightRatePerLengthEUR settings) = true ->
  is_positive (customsNumerator settings) = true ->
  is_positive (customsDenominator settings) = true ->
  is_positive (warrantyRate settings) = true ->
  is_positive (internalCommissionFactor settings) = true ->
  is_positive (companyCostFactor settings) = true ->
  is_positive (profitFactor settings) = true ->
  is_nonnegative (calculatePriceInternal device settings) = true.
Proof.
  intros HP HL HW HD HF HCN HCD HWR HCOM HOFF HPF.
  unfold calculatePriceInternal, calculateBreakdown. cbn [steps sellPrice].
  assert (Hpos : forall x, is_positive x = true -> is_nonnegative x = true)
    by (intros [| | |[] ? ?]; try discriminate; reflexivity).
  apply Math_ceil_nonnegative.
  repeat apply div_nonnegative_positive; try assumption.
  repeat apply add_nonnegative.
  - apply mul_positive; assumption.
  - apply mul_positive; assumption.
  - apply mul_positive_nonnegative; [assumption|].
    apply div_nonnegative_positive; [apply Hpos|]; assumption.
  - apply mul_nonnegative_positive; [|assumption]. apply mul_positive; assumption.
Qed.

Lemma sellPrice_nonnegative_witness :
  is_nonnegative (calculatePriceInternal worked_device worked_settings) = true.
Proof.
  apply sellPrice_nonnegative; reflexivity.
Defined.
